(** * ecsctl: a shallow embedding of [ecsctl.py]

    The program is a command line client over three AWS service clients
    (ECS, EC2, SSM), an STS based authentication helper and a one-key JSON
    configuration file.  Everything outside the program (the environment
    variables, boto3, the [datetime] library) is an oracle the definitions
    are parameterised by; the program itself is written in a small
    state-and-exception monad whose state holds the configuration file and
    the chronological trace of the effects the program performed. *)

From Stdlib Require Import String Ascii ZArith List Bool Lia DecimalString.
From stdpp Require Import base option list gmap strings.

Local Open Scope Z_scope.

(** ** Python values used by the program *)

(** [bool(x)] of an [Optional[str]]: [None] and the empty string are false. *)
Definition truthy (o : option string) : bool :=
  match o with
  | Some s => negb (String.eqb s "")
  | None => false
  end.

(** [a or b] on [Optional[str]] values. *)
Definition py_or (a b : option string) : option string :=
  if truthy a then a else b.

(** [s.split(sep)] for a one character separator: every occurrence of the
    separator cuts, empty pieces are kept, the result is never empty. *)
Fixpoint split (sep : ascii) (s : string) : list string :=
  match s with
  | EmptyString => [EmptyString]
  | String c s' =>
      if Ascii.eqb c sep then EmptyString :: split sep s'
      else match split sep s' with
           | [] => [String c EmptyString]
           | w :: ws => String c w :: ws
           end
  end.

(** [l[-1]]: the last element, [None] standing for Python's IndexError. *)
Fixpoint last_item {A} (l : list A) : option A :=
  match l with
  | [] => None
  | [x] => Some x
  | _ :: l' => last_item l'
  end.

(** [l[0]]. *)
Definition first_item {A} (l : list A) : option A :=
  match l with
  | [] => None
  | x :: _ => Some x
  end.

Definition slash : ascii := "/"%char.

(** [s.split('/')[-1]]; [split] never returns the empty list, so the
    default is never taken. *)
Definition split_last (s : string) : string :=
  match last_item (split slash s) with
  | Some w => w
  | None => EmptyString
  end.

(** [c in s] for a character. *)
Fixpoint contains (c : ascii) (s : string) : bool :=
  match s with
  | EmptyString => false
  | String d s' => Ascii.eqb d c || contains c s'
  end.

(** [x in l] for a list of strings. *)
Fixpoint str_in (x : string) (l : list string) : bool :=
  match l with
  | [] => false
  | y :: l' => String.eqb x y || str_in x l'
  end.

(** ** Exceptions *)

(** The classes of exception that occur.  All of them derive from
    [Exception]; [SystemExit], raised by [sys.exit], does not. *)
Inductive exn_class :=
| SdkError            (* raised inside boto3 / botocore *)
| IndexError          (* an index out of range *)
| FileNotFoundError   (* [open] of a file that does not exist *)
| PlainException      (* [raise Exception(...)] *)
| ECSCommandError.    (* the program's own class *)

Inductive exn :=
| Exception_ (cls : exn_class) (text : string)
| SystemExit (code : Z).

(** ** Sessions, clients and the AWS responses *)

(** The keyword arguments a [boto3.Session] was built from. *)
Record Session := {
  sess_profile_name : option string;
  sess_region_name : option string;
  sess_access_key_id : option string;
  sess_secret_access_key : option string;
  sess_session_token : option string
}.

(** [session.client(service)]. *)
Record Client := {
  client_session : Session;
  client_service : string
}.

(** [assumed_role['Credentials']]. *)
Record Credentials := {
  AccessKeyId : string;
  SecretAccessKey : string;
  SessionToken : string
}.

(** An element of [response['containerInstances']]. *)
Record ContainerInstance := {
  ec2InstanceId : string;
  status : string;
  runningTasksCount : Z
}.

(** [ec2_response['Reservations'][i]['Instances'][j]]. *)
Record Instance := {
  ec2_InstanceType : string;
  ec2_State_Name : string
}.

Record Reservation := {
  Instances : list Instance
}.

(** An element of [task['containers']]; [cpu] and [memory] may be absent. *)
Record Container := {
  name : string;
  lastStatus : string;
  cpu : option string;
  memory : option string
}.

(** An element of [response['InstanceInformationList']]. *)
Record InstanceInformation := {
  info_InstanceId : string;
  info_PingStatus : string
}.

(** The configuration file is a JSON object; its values are [null] or a
    string. *)
Inductive json :=
| JNull
| JStr (s : string).

Definition CURRENT_CLUSTER : string := "current-cluster".

(** The dictionary [instance_info] built by [get_ec2_instances]. *)
Module InstanceInfo.
Record t := {
  InstanceId : string;
  InstanceType : string;
  State : string;
  Status : string;
  RunningTasks : Z
}.
End InstanceInfo.

(** The dictionary [container_info] built by [get_containers]. *)
Module ContainerInfo.
Record t := {
  Name : string;
  Status : string;
  TaskId : string;
  CPU : string;
  Memory : string;
  Created : string
}.
End ContainerInfo.

(** ** The [datetime] library

    [task['createdAt']] is a [datetime]; the program only goes through
    [timestamp], [datetime.fromtimestamp] and [strftime], which belong to
    Python's standard library and are taken as an interface. *)
Class DatetimeLib := {
  datetime : Type;
  pyfloat : Type;
  timestamp : datetime -> pyfloat;
  fromtimestamp : pyfloat -> datetime;
  strftime : datetime -> string -> string
}.

(** An element of [response['tasks']]. *)
Record Task `{DatetimeLib} := {
  taskArn : string;
  containers : list Container;
  createdAt : datetime
}.

(** ** The world outside the program

    [getenv] is [os.getenv] once [load_dotenv()] has run.  Every boto3 entry
    point either raises (left, the text of the exception) or returns its
    response (right); constructors of sessions and clients may raise too. *)
Record World `{DatetimeLib} := {
  getenv : string -> option string;
  boto3_Session : Session -> option string;
  session_client : Session -> string -> option string;
  assume_role : Client -> string -> string -> string + Credentials;
  list_clusters : Client -> string + list string;
  list_container_instances : Client -> string -> string + list string;
  describe_container_instances :
    Client -> string -> list string -> string + list ContainerInstance;
  describe_instances : Client -> list string -> string + list Reservation;
  list_tasks : Client -> string -> string + list string;
  describe_tasks : Client -> string -> list string -> string + list Task;
  describe_instance_information :
    Client -> string -> string + list InstanceInformation
}.

(** A call into boto3, as it is recorded in the trace. *)
Inductive call :=
| NewSession (s : Session)
| NewClient (s : Session) (service : string)
| AssumeRole (c : Client) (RoleArn RoleSessionName : string)
| ListClusters (c : Client)
| ListContainerInstances (c : Client) (cluster : string)
| DescribeContainerInstances (c : Client) (cluster : string)
    (containerInstances : list string)
| DescribeInstances (c : Client) (InstanceIds : list string)
| ListTasks (c : Client) (cluster : string)
| DescribeTasks (c : Client) (cluster : string) (tasks : list string)
| DescribeInstanceInformation (c : Client) (instance_id : string).

(** The effects of the program, in the order they happen. *)
Inductive event :=
| Sdk (c : call)
| WriteConfig (config : gmap string json)   (* [_save_config] *)
| Echo (err : bool) (text : string)         (* [click.echo] *)
| Subprocess (cmd : list string).           (* [subprocess.run] *)

(** [config_file] is the content of [CONFIG_FILE], [None] when the file does
    not exist.  The file is only ever written by [json.dump] of a dictionary
    and read by [json.load], so its content is kept as the JSON object. *)
Record state := {
  config_file : option (gmap string json);
  trace : list event
}.

Definition log (evs : list event) (st : state) : state :=
  {| config_file := config_file st; trace := trace st ++ evs |}.

(** ** The monad of the program *)

Inductive outcome (A : Type) :=
| Return (a : A)
| Raise (e : exn).
Arguments Return {A} a.
Arguments Raise {A} e.

Definition M (A : Type) : Type := state -> outcome A * state.

Definition ret {A} (a : A) : M A := fun st => (Return a, st).

Definition bind {A B} (m : M A) (k : A -> M B) : M B :=
  fun st =>
    match m st with
    | (Return a, st') => k a st'
    | (Raise e, st') => (Raise e, st')
    end.

Definition raise {A} (e : exn) : M A := fun st => (Raise e, st).

#[global] Instance M_ret : MRet M := @ret.
#[global] Instance M_bind : MBind M := fun A B k m => bind m k.
#[global] Instance M_throw : MThrow exn M := @raise.

(** [try: body  except Exception as e: handler(str(e))].  [SystemExit] is
    not an [Exception] and goes through. *)
Definition try_except {A} (body : M A) (handler : string -> M A) : M A :=
  fun st =>
    match body st with
    | (Raise (Exception_ _ text), st') => handler text st'
    | r => r
    end.

(** [try: body  except ECSCommandError as e: handler(str(e))]. *)
Definition try_except_ecs {A} (body : M A) (handler : string -> M A) : M A :=
  fun st =>
    match body st with
    | (Raise (Exception_ ECSCommandError text), st') => handler text st'
    | r => r
    end.

Definition emit (ev : event) : M unit := fun st => (Return tt, log [ev] st).

(** A boto3 call: recorded, then raising or returning as the world says. *)
Definition sdk {A} (c : call) (r : string + A) : M A :=
  fun st =>
    (match r with
     | inl text => Raise (Exception_ SdkError text)
     | inr a => Return a
     end, log [Sdk c] st).

Definition sdk_new (c : call) (r : option string) : M unit :=
  sdk c (match r with Some text => inl text | None => inr tt end).

(** [sys.exit(code)]. *)
Definition sys_exit {A} (code : Z) : M A := raise (SystemExit code).

(** [click.echo(text, err=err)]. *)
Definition click_echo (text : string) (err : bool) : M unit :=
  emit (Echo err text).

(** [for x in l: acc.append(f(x))]: the elements are visited in order and
    the first exception ends the loop. *)
Fixpoint for_each {A B} (f : A -> M B) (l : list A) : M (list B) :=
  match l with
  | [] => mret []
  | x :: l' => y ← f x; ys ← for_each f l'; mret (y :: ys)
  end.

(** [for x in l: f(x)] for a body without result. *)
Fixpoint for_each_ {A} (f : A -> M unit) (l : list A) : M unit :=
  match l with
  | [] => mret tt
  | x :: l' => f x;; for_each_ f l'
  end.

(** [l[0]], raising IndexError on the empty list. *)
Definition index0 {A} (l : list A) : M A :=
  match first_item l with
  | Some x => mret x
  | None => mthrow (Exception_ IndexError "list index out of range")
  end.

(** ** The program *)

Record AWSClient := {
  profile_name : option string;
  region : string
}.

Record ECSController := {
  aws_client : AWSClient;
  ecs_client : Client;
  ec2_client : Client;
  ssm_client : Client
}.

(** [boto3.Session(profile_name=p)]. *)
Definition profile_session (p : option string) : Session :=
  {| sess_profile_name := p; sess_region_name := None;
     sess_access_key_id := None; sess_secret_access_key := None;
     sess_session_token := None |}.

(** [boto3.Session(region_name=r)]. *)
Definition region_session (r : string) : Session :=
  {| sess_profile_name := None; sess_region_name := Some r;
     sess_access_key_id := None; sess_secret_access_key := None;
     sess_session_token := None |}.

(** [boto3.Session(profile_name=p, region_name=r)]. *)
Definition plain_session (p : option string) (r : string) : Session :=
  {| sess_profile_name := p; sess_region_name := Some r;
     sess_access_key_id := None; sess_secret_access_key := None;
     sess_session_token := None |}.

(** [boto3.Session(aws_access_key_id=.., aws_secret_access_key=..,
    aws_session_token=.., region_name=r)]. *)
Definition credentials_session (c : Credentials) (r : string) : Session :=
  {| sess_profile_name := None; sess_region_name := Some r;
     sess_access_key_id := Some (AccessKeyId c);
     sess_secret_access_key := Some (SecretAccessKey c);
     sess_session_token := Some (SessionToken c) |}.

Definition DEFAULT_SESSION_NAME : string := "AssumeRoleSession".
Definition DEFAULT_REGION : string := "ap-southeast-1".
Definition CREATED_FORMAT : string := "%Y-%m-%d %H:%M:%S".

Section Program.
Context `{DatetimeLib} (w : World).

(** [boto3.Session(...)] and [session.client(service)]. *)
Definition new_session (s : Session) : M Session :=
  sdk_new (NewSession s) (boto3_Session w s);; mret s.

Definition new_client (s : Session) (service : string) : M Client :=
  sdk_new (NewClient s service) (session_client w s service);;
  mret {| client_session := s; client_service := service |}.

(** *** AWSClient *)

Definition AWSClient_init (profile : option string) : AWSClient :=
  {| profile_name := py_or profile (getenv w "AWS_PROFILE");
     region := default DEFAULT_REGION (getenv w "AWS_REGION") |}.

Definition authenticate (self : AWSClient) (role_arn : string)
    (session_name : string) : M Session :=
  try_except
    (session ← (if truthy (profile_name self)
                then new_session (profile_session (profile_name self))
                else new_session (region_session (region self)));
     sts_client ← new_client session "sts";
     assumed_role ← sdk (AssumeRole sts_client role_arn session_name)
                        (assume_role w sts_client role_arn session_name);
     new_session (credentials_session assumed_role (region self)))
    (fun text =>
       mthrow (Exception_ PlainException
                 ("Failed to authenticate with AWS: " +:+ text))).

(** *** ClusterConfig

    [CONFIG_DIR.mkdir(exist_ok=True)] has no effect on the file and is
    left out. *)

Definition _save_config (config : gmap string json) : M unit :=
  fun st =>
    (Return tt,
     {| config_file := Some config;
        trace := trace st ++ [WriteConfig config] |}).

Definition _load_config : M (gmap string json) :=
  fun st =>
    match config_file st with
    | Some config => (Return config, st)
    | None =>
        (Raise (Exception_ FileNotFoundError
                  "[Errno 2] No such file or directory"), st)
    end.

Definition _ensure_config_exists : M unit :=
  fun st =>
    match config_file st with
    | Some _ => (Return tt, st)
    | None => _save_config {[ CURRENT_CLUSTER := JNull ]} st
    end.

Definition ClusterConfig_init : M unit := _ensure_config_exists.

(** [config.get('current-cluster')]: [None] for a missing key and for
    [null]. *)
Definition get_current_cluster : M (option string) :=
  config ← _load_config;
  mret (match config !! CURRENT_CLUSTER with
        | Some (JStr s) => Some s
        | _ => None
        end).

Definition set_current_cluster (cluster_name : string) : M unit :=
  config ← _load_config;
  _save_config (<[ CURRENT_CLUSTER := JStr cluster_name ]> config).

(** *** ECSController *)

Definition _initialize_aws_clients : M ECSController :=
  let aws_client := AWSClient_init None in
  let role_arn := getenv w "AWS_ROLE_ARN" in
  session ← (if truthy role_arn
             then authenticate aws_client (default EmptyString role_arn)
                    DEFAULT_SESSION_NAME
             else new_session (plain_session (profile_name aws_client)
                                 (region aws_client)));
  ecs ← new_client session "ecs";
  ec2 ← new_client session "ec2";
  ssm ← new_client session "ssm";
  ClusterConfig_init;;
  mret {| aws_client := aws_client; ecs_client := ecs;
          ec2_client := ec2; ssm_client := ssm |}.

Definition ECSController_init : M ECSController :=
  try_except _initialize_aws_clients
    (fun text =>
       mthrow (Exception_ ECSCommandError
                 ("Failed to initialize AWS clients: " +:+ text))).

Definition get_clusters (self : ECSController) : M (list string) :=
  try_except
    (clusters ← sdk (ListClusters (ecs_client self))
                    (list_clusters w (ecs_client self));
     mret (map split_last clusters))
    (fun text =>
       mthrow (Exception_ ECSCommandError
                 ("Failed to get clusters: " +:+ text))).

(** The body of the loop over [response['containerInstances']].  The
    dictionary indexes [ec2_response['Reservations'][0]['Instances'][0]]
    twice, for the type and for the state; the first indexing decides
    whether IndexError is raised. *)
Definition instance_info (self : ECSController) (instance : ContainerInstance)
    : M InstanceInfo.t :=
  ec2_response ← sdk (DescribeInstances (ec2_client self)
                        [ec2InstanceId instance])
                     (describe_instances w (ec2_client self)
                        [ec2InstanceId instance]);
  reservation ← index0 ec2_response;
  ec2_instance ← index0 (Instances reservation);
  mret {| InstanceInfo.InstanceId := ec2InstanceId instance;
          InstanceInfo.InstanceType := ec2_InstanceType ec2_instance;
          InstanceInfo.State := ec2_State_Name ec2_instance;
          InstanceInfo.Status := status instance;
          InstanceInfo.RunningTasks := runningTasksCount instance |}.

Definition get_ec2_instances (self : ECSController) (cluster_name : string)
    : M (list InstanceInfo.t) :=
  try_except
    (container_instances ←
       sdk (ListContainerInstances (ecs_client self) cluster_name)
           (list_container_instances w (ecs_client self) cluster_name);
     match container_instances with
     | [] => mret []
     | _ :: _ =>
         response ←
           sdk (DescribeContainerInstances (ecs_client self) cluster_name
                  container_instances)
               (describe_container_instances w (ecs_client self)
                  cluster_name container_instances);
         for_each (instance_info self) response
     end)
    (fun text =>
       mthrow (Exception_ ECSCommandError
                 ("Failed to get EC2 instances: " +:+ text))).

(** The dictionary built in the inner loop of [get_containers]. *)
Definition container_info (task : Task) (container : Container)
    : ContainerInfo.t :=
  {| ContainerInfo.Name := name container;
     ContainerInfo.Status := lastStatus container;
     ContainerInfo.TaskId := split_last (taskArn task);
     ContainerInfo.CPU := default "N/A" (cpu container);
     ContainerInfo.Memory := default "N/A" (memory container);
     ContainerInfo.Created :=
       strftime (fromtimestamp (timestamp (createdAt task)))
         CREATED_FORMAT |}.

Definition get_containers (self : ECSController) (cluster_name : string)
    : M (list ContainerInfo.t) :=
  try_except
    (tasks ← sdk (ListTasks (ecs_client self) cluster_name)
                 (list_tasks w (ecs_client self) cluster_name);
     match tasks with
     | [] => mret []
     | _ :: _ =>
         response ←
           sdk (DescribeTasks (ecs_client self) cluster_name tasks)
               (describe_tasks w (ecs_client self) cluster_name tasks);
         mret (concat (map (fun task =>
                              map (container_info task) (containers task))
                         response))
     end)
    (fun text =>
       mthrow (Exception_ ECSCommandError
                 ("Failed to get containers: " +:+ text))).

Definition get_instance_details (self : ECSController)
    (cluster_name instance_id : string) : M (option InstanceInfo.t) :=
  try_except
    (instances ← get_ec2_instances self cluster_name;
     mret (find (fun instance =>
                   String.eqb (InstanceInfo.InstanceId instance) instance_id)
             instances))
    (fun text =>
       mthrow (Exception_ ECSCommandError
                 ("Failed to get instance details: " +:+ text))).

Definition check_ssm_status (self : ECSController) (instance_id : string)
    : M bool :=
  try_except
    (response ←
       sdk (DescribeInstanceInformation (ssm_client self) instance_id)
           (describe_instance_information w (ssm_client self) instance_id);
     mret (Nat.ltb 0 (length response)))
    (fun _ => mret false).
End Program.

(** ** The commands *)

Section Commands.
Context `{DatetimeLib} (w : World).

Definition NO_CLUSTER_SELECTED : string :=
  "Error: No cluster selected. Use 'ecsctl use-cluster' first.".

(** The handler shared by the commands:
    [except ECSCommandError as e: click.echo(f"Error: {str(e)}", err=True);
    sys.exit(1)]. *)
Definition report_and_exit {A} (text : string) : M A :=
  click_echo ("Error: " +:+ text) true;; sys_exit 1.

Definition use_cluster (cluster_name : string) : M unit :=
  try_except_ecs
    (ecs ← ECSController_init w;
     clusters ← get_clusters w ecs;
     (if negb (str_in cluster_name clusters)
      then
        click_echo ("Error: Cluster '" +:+ cluster_name
                      +:+ "' not found. Available clusters:") true;;
        for_each_ (fun cluster => click_echo ("  - " +:+ cluster) false)
          clusters;;
        sys_exit 1
      else mret tt);;
     set_current_cluster cluster_name;;
     click_echo ("Switched to cluster '" +:+ cluster_name +:+ "'") false)
    report_and_exit.

(** The command line [exec] hands to [subprocess.run]. *)
Definition ssm_command (ecs : ECSController) (instance_id : string)
    : list string :=
  ["aws"; "ssm"; "start-session"; "--target"; instance_id]
  ++ (if truthy (profile_name (aws_client ecs))
      then ["--profile"; default EmptyString (profile_name (aws_client ecs))]
      else [])
  ++ ["--region"; region (aws_client ecs)].

Definition exec_instance (instance_id : string) : M unit :=
  try_except_ecs
    (ecs ← ECSController_init w;
     current_cluster ← get_current_cluster;
     (if negb (truthy current_cluster)
      then click_echo NO_CLUSTER_SELECTED true;; sys_exit 1
      else mret tt);;
     let cluster := default EmptyString current_cluster in
     instance ← get_instance_details w ecs cluster instance_id;
     (match instance with
      | None =>
          click_echo ("Error: Instance '" +:+ instance_id
                        +:+ "' not found in cluster '" +:+ cluster +:+ "'")
            true;;
          sys_exit 1
      | Some _ => mret tt
      end);;
     ssm_ok ← check_ssm_status w ecs instance_id;
     (if negb ssm_ok
      then
        click_echo ("Error: SSM is not available on instance '"
                      +:+ instance_id +:+ "'") true;;
        sys_exit 1
      else mret tt);;
     click_echo ("Starting session with instance '" +:+ instance_id
                   +:+ "'...") false;;
     emit (Subprocess (ssm_command ecs instance_id)))
    report_and_exit.
End Commands.

(** ** The listing commands

    The commands [get-clusters], [get ec2] and [get containers] build a
    [rich] table and hand it to [console.print].  A table is kept as what
    the program puts into it; the table a command prints is the result of
    its model, the trace keeping the calls, writes, messages and launches
    as before. *)

Record Table := {
  show_header : bool;
  header_style : string;
  columns : list string;
  rows : list (list string)
}.

(** [Table(show_header=True, header_style="bold magenta")]. *)
Definition Table_new : Table :=
  {| show_header := true; header_style := "bold magenta";
     columns := []; rows := [] |}.

(** [table.add_column(header)]. *)
Definition add_column (table : Table) (header : string) : Table :=
  {| show_header := show_header table; header_style := header_style table;
     columns := columns table ++ [header]; rows := rows table |}.

(** [table.add_row(cell, ..., cell)]. *)
Definition add_row (table : Table) (cells : list string) : Table :=
  {| show_header := show_header table; header_style := header_style table;
     columns := columns table; rows := rows table ++ [cells] |}.

(** [for x in l: table.add_row(...)]. *)
Definition add_rows {A} (cells : A -> list string) (l : list A)
    (table : Table) : Table :=
  fold_left (fun t x => add_row t (cells x)) l table.

(** [str(n)] of an integer. *)
Definition str_int (n : Z) : string := NilZero.string_of_int (Z.to_int n).

(** [cluster == current] for a string and an [Optional[str]]. *)
Definition eq_current (cluster : string) (current : option string) : bool :=
  match current with
  | Some c => String.eqb cluster c
  | None => false
  end.

(** [ecs.console.print(table)]. *)
Definition console_print (table : Table) : M Table := mret table.

Module Cli.
Section Listing.
Context `{DatetimeLib} (w : World).

Definition get_clusters : M Table :=
  try_except_ecs
    (ecs ← ECSController_init w;
     clusters ← get_clusters w ecs;
     current ← get_current_cluster;
     let table := Table_new in
     let table := add_column table "Cluster Name" in
     let table := add_column table "Current" in
     let table :=
       add_rows (fun cluster =>
                   [cluster; if eq_current cluster current then "*" else ""])
         clusters table in
     console_print table)
    report_and_exit.

Definition get_ec2 : M Table :=
  try_except_ecs
    (ecs ← ECSController_init w;
     current_cluster ← get_current_cluster;
     (if negb (truthy current_cluster)
      then click_echo NO_CLUSTER_SELECTED true;; sys_exit 1
      else mret tt);;
     instances ← get_ec2_instances w ecs (default EmptyString current_cluster);
     let table := Table_new in
     let table := add_column table "Instance ID" in
     let table := add_column table "Type" in
     let table := add_column table "State" in
     let table := add_column table "Status" in
     let table := add_column table "Running Tasks" in
     let table :=
       add_rows (fun instance =>
                   [InstanceInfo.InstanceId instance;
                    InstanceInfo.InstanceType instance;
                    InstanceInfo.State instance;
                    InstanceInfo.Status instance;
                    str_int (InstanceInfo.RunningTasks instance)])
         instances table in
     console_print table)
    report_and_exit.

Definition get_containers : M Table :=
  try_except_ecs
    (ecs ← ECSController_init w;
     current_cluster ← get_current_cluster;
     (if negb (truthy current_cluster)
      then click_echo NO_CLUSTER_SELECTED true;; sys_exit 1
      else mret tt);;
     containers ← get_containers w ecs (default EmptyString current_cluster);
     let table := Table_new in
     let table := add_column table "Name" in
     let table := add_column table "Status" in
     let table := add_column table "Task ID" in
     let table := add_column table "CPU" in
     let table := add_column table "Memory" in
     let table := add_column table "Created" in
     let table :=
       add_rows (fun container =>
                   [ContainerInfo.Name container;
                    ContainerInfo.Status container;
                    ContainerInfo.TaskId container;
                    ContainerInfo.CPU container;
                    ContainerInfo.Memory container;
                    ContainerInfo.Created container])
         containers table in
     console_print table)
    report_and_exit.
End Listing.
End Cli.

(** ** Vocabulary of the statements *)

(** [name] is the substring of [arn] after its last ['/']: [arn] ends with a
    ['/'] followed by [name], and [name] holds no ['/']. *)
Definition after_last_slash (arn name : string) : Prop :=
  contains slash name = false /\
  exists pre, arn = pre +:+ String slash name.

(** [name] is the last segment of [arn]: the part after the last ['/'], and
    all of [arn] when it holds none. *)
Definition last_segment (arn name : string) : Prop :=
  if contains slash arn then after_last_slash arn name else name = arn.

(** The events [m] adds to the trace when it runs from [st]. *)
Definition events_of {A} (m : M A) (st : state) : list event :=
  drop (length (trace st)) (trace (snd (m st))).

(** The contents the configuration file can have once [ClusterConfig] has
    created it: the file [ClusterConfig()] writes where there was none, and
    whatever a further [ClusterConfig()], [get_current_cluster] or
    [set_current_cluster] leaves behind. *)
Inductive reachable : option (gmap string json) -> Prop :=
| reach_initial st st' :
    config_file st = None ->
    ClusterConfig_init st = (Return tt, st') ->
    reachable (config_file st')
| reach_init st r st' :
    reachable (config_file st) ->
    ClusterConfig_init st = (r, st') ->
    reachable (config_file st')
| reach_get st r st' :
    reachable (config_file st) ->
    get_current_cluster st = (r, st') ->
    reachable (config_file st')
| reach_set cluster_name st r st' :
    reachable (config_file st) ->
    set_current_cluster cluster_name st = (r, st') ->
    reachable (config_file st').

(** The session [authenticate] calls STS with. *)
Definition base_session (self : AWSClient) : Session :=
  if truthy (profile_name self) then profile_session (profile_name self)
  else region_session (region self).

(** The calls [authenticate] makes when none of them raises. *)
Definition authenticate_calls (self : AWSClient)
    (role_arn session_name : string) (creds : Credentials) : list event :=
  let sts := {| client_session := base_session self;
                client_service := "sts" |} in
  [ Sdk (NewSession (base_session self));
    Sdk (NewClient (base_session self) "sts");
    Sdk (AssumeRole sts role_arn session_name);
    Sdk (NewSession (credentials_session creds (region self))) ].

(** The controller whose three clients are made from [session], and the
    calls that make them. *)
Definition controller_on (client : AWSClient) (session : Session)
    : ECSController :=
  {| aws_client := client;
     ecs_client := {| client_session := session; client_service := "ecs" |};
     ec2_client := {| client_session := session; client_service := "ec2" |};
     ssm_client := {| client_session := session; client_service := "ssm" |} |}.

Definition client_calls (session : Session) : list event :=
  [ Sdk (NewClient session "ecs"); Sdk (NewClient session "ec2");
    Sdk (NewClient session "ssm") ].

(** Calls into boto3 and messages, as opposed to writes of the
    configuration file and launches of a process. *)
Definition quiet (ev : event) : bool :=
  match ev with
  | Sdk _ | Echo _ _ => true
  | WriteConfig _ | Subprocess _ => false
  end.

(** [m] only calls boto3 and prints: it leaves the configuration file
    alone, launches nothing and does not exit. *)
Definition calm {A} (m : M A) : Prop :=
  forall st, exists evs,
    snd (m st) = log evs st /\
    forallb quiet evs = true /\
    forall code, fst (m st) <> Raise (SystemExit code).

(** [subprocess.run] was called. *)
Definition is_launch (ev : event) : bool :=
  match ev with
  | Subprocess _ => true
  | _ => false
  end.

(** The cluster a configuration file selects: [None] when there is no
    file, no key or [null] under the key. *)
Definition persisted (f : option (gmap string json)) : option string :=
  match f with
  | Some config =>
      match config !! CURRENT_CLUSTER with
      | Some (JStr s) => Some s
      | _ => None
      end
  | None => None
  end.

Section Vocabulary.
Context `{DatetimeLib} (w : World).

(** The text of the exception the world raises at a call, if it does. *)
Definition raised (c : call) : option string :=
  let text {A} (r : string + A) : option string :=
    match r with inl t => Some t | inr _ => None end in
  match c with
  | NewSession s => boto3_Session w s
  | NewClient s service => session_client w s service
  | AssumeRole c a n => text (assume_role w c a n)
  | ListClusters c => text (list_clusters w c)
  | ListContainerInstances c cl => text (list_container_instances w c cl)
  | DescribeContainerInstances c cl l =>
      text (describe_container_instances w c cl l)
  | DescribeInstances c l => text (describe_instances w c l)
  | ListTasks c cl => text (list_tasks w c cl)
  | DescribeTasks c cl l => text (describe_tasks w c cl l)
  | DescribeInstanceInformation c i =>
      text (describe_instance_information w c i)
  end.
(** [describe_instances] on the EC2 id of [ci] returns a response with a
    first reservation that has a first instance. *)
Definition has_first_instance (self : ECSController)
    (ci : ContainerInstance) : Prop :=
  exists r rs i l,
    describe_instances w (ec2_client self) [ec2InstanceId ci]
    = inr (r :: rs) /\ Instances r = i :: l.

(** [info] is the record of the container instance [ci]: id, status and
    task count from [ci], type and state from the first instance of the
    first reservation [describe_instances] returns for its id. *)
Definition instance_record (self : ECSController) (ci : ContainerInstance)
    (info : InstanceInfo.t) : Prop :=
  InstanceInfo.InstanceId info = ec2InstanceId ci /\
  InstanceInfo.Status info = status ci /\
  InstanceInfo.RunningTasks info = runningTasksCount ci /\
  exists r rs i l,
    describe_instances w (ec2_client self) [ec2InstanceId ci]
    = inr (r :: rs) /\ Instances r = i :: l /\
    InstanceInfo.InstanceType info = ec2_InstanceType i /\
    InstanceInfo.State info = ec2_State_Name i.
(** [m] hands on the exceptions of boto3, their text going through [g]:
    whenever a call recorded while [m] ran raised, [m] raised an exception
    whose text is [g] of the text of that call's exception.  [m] itself
    only adds to the trace. *)
Definition reports {A} (g : string -> string) (m : M A) : Prop :=
  forall st, exists evs,
    snd (m st) = log evs st /\
    forall c text,
      In (Sdk c) evs -> raised c = Some text ->
      exists cls, fst (m st) = Raise (Exception_ cls (g text)).

(** What [_initialize_aws_clients] does before it comes to the
    configuration file. *)
Definition connect : M ECSController :=
  let aws_client := AWSClient_init w None in
  let role_arn := getenv w "AWS_ROLE_ARN" in
  session ← (if truthy role_arn
             then authenticate w aws_client (default EmptyString role_arn)
                    DEFAULT_SESSION_NAME
             else new_session w (plain_session (profile_name aws_client)
                                   (region aws_client)));
  ecs ← new_client w session "ecs";
  ec2 ← new_client w session "ec2";
  ssm ← new_client w session "ssm";
  mret {| aws_client := aws_client; ecs_client := ecs;
          ec2_client := ec2; ssm_client := ssm |}.

(** The preconditions of [exec] when it starts from [st]: the controller
    comes up, the configuration file it then finds selects a cluster,
    [get_ec2_instances] returns for that cluster a record with the given
    instance id, and [check_ssm_status] answers [True] for that id. *)
Definition exec_preconditions (instance_id : string) (st : state) : Prop :=
  exists ecs st1 cluster instances instance,
    ECSController_init w st = (Return ecs, st1) /\
    fst (get_current_cluster st1) = Return (Some cluster) /\
    cluster <> EmptyString /\
    fst (get_ec2_instances w ecs cluster st1) = Return instances /\
    In instance instances /\
    InstanceInfo.InstanceId instance = instance_id /\
    fst (check_ssm_status w ecs instance_id st1) = Return true.

(** The EC2 lookup of the container instance [ci] fails with [text]:
    [describe_instances] raises an exception of that text, or it returns
    no reservation, or a first reservation without instance, and the
    indexing raises IndexError. *)
Definition instance_fails (self : ECSController) (ci : ContainerInstance)
    (text : string) : Prop :=
  describe_instances w (ec2_client self) [ec2InstanceId ci] = inl text \/
  (text = "list index out of range" /\
   (describe_instances w (ec2_client self) [ec2InstanceId ci] = inr [] \/
    exists r rs,
      describe_instances w (ec2_client self) [ec2InstanceId ci]
      = inr (r :: rs) /\ Instances r = [])).

End Vocabulary.

(** ** A concrete world

    A [datetime] library for the UTC time zone, with whole seconds since the
    epoch for both [datetime] and [float], and a small AWS account; the
    examples below run the program in it. *)

Module UTC.
Definition digit (n : Z) : ascii := ascii_of_nat (48 + Z.to_nat n).

Definition pad2 (n : Z) : string :=
  String (digit (n / 10 mod 10)) (String (digit (n mod 10)) EmptyString).

Definition pad4 (n : Z) : string := pad2 (n / 100) +:+ pad2 n.

(** Year, month and day of a day number counted from 1970-01-01. *)
Definition civil (days : Z) : Z * Z * Z :=
  let z := days + 719468 in
  let era := z / 146097 in
  let doe := z - era * 146097 in
  let yoe := (doe - doe / 1460 + doe / 36524 - doe / 146096) / 365 in
  let doy := doe - (365 * yoe + yoe / 4 - yoe / 100) in
  let mp := (5 * doy + 2) / 153 in
  let d := doy - (153 * mp + 2) / 5 + 1 in
  let m := if mp <? 10 then mp + 3 else mp - 9 in
  let y := yoe + era * 400 + (if m <=? 2 then 1 else 0) in
  (y, m, d).

(** The rendering of [CREATED_FORMAT]; other formats are left as they
    are. *)
Definition format (t : Z) (fmt : string) : string :=
  if String.eqb fmt CREATED_FORMAT then
    let '(y, m, d) := civil (t / 86400) in
    let s := t mod 86400 in
    pad4 y +:+ "-" +:+ pad2 m +:+ "-" +:+ pad2 d +:+ " "
      +:+ pad2 (s / 3600) +:+ ":" +:+ pad2 (s / 60 mod 60) +:+ ":"
      +:+ pad2 (s mod 60)
  else fmt.

Definition lib : DatetimeLib :=
  {| datetime := Z; pyfloat := Z;
     timestamp := fun t => t; fromtimestamp := fun t => t;
     strftime := format |}.

(** The [datetime] of a number of seconds since the epoch. *)
Definition at_time (t : Z) : @datetime lib := t.
End UTC.

Module Sample.
Definition ROLE : string := "arn:aws:iam::123456789012:role/MyRole".
Definition PROD : string :=
  "arn:aws:ecs:ap-southeast-1:123456789012:cluster/prod".
Definition STAGING : string :=
  "arn:aws:ecs:ap-southeast-1:123456789012:cluster/staging".
Definition CI_1 : string :=
  "arn:aws:ecs:ap-southeast-1:123456789012:container-instance/prod/c1".
Definition CI_2 : string :=
  "arn:aws:ecs:ap-southeast-1:123456789012:container-instance/prod/c2".
Definition TASK_1 : string :=
  "arn:aws:ecs:ap-southeast-1:123456789012:task/prod/0f3a".

Definition env (role profile : option string) (k : string)
    : option string :=
  if String.eqb k "AWS_ROLE_ARN" then role
  else if String.eqb k "AWS_PROFILE" then profile
  else None.

Definition credentials : Credentials :=
  {| AccessKeyId := "ASIAEXAMPLE"; SecretAccessKey := "secret";
     SessionToken := "token" |}.

Definition container_instances : list ContainerInstance :=
  [ {| ec2InstanceId := "i-0aaa"; status := "ACTIVE";
       runningTasksCount := 2 |};
    {| ec2InstanceId := "i-0bbb"; status := "DRAINING";
       runningTasksCount := 0 |} ].

Definition reservations (ids : list string) : string + list Reservation :=
  match ids with
  | [id] =>
      if String.eqb id "i-0aaa" then
        inr [ {| Instances := [ {| ec2_InstanceType := "t3.medium";
                                   ec2_State_Name := "running" |} ] |} ]
      else if String.eqb id "i-0bbb" then
        inr [ {| Instances := [ {| ec2_InstanceType := "t3.large";
                                   ec2_State_Name := "stopping" |} ] |} ]
      else inl "InvalidInstanceID.NotFound"
  | _ => inl "InvalidInstanceID.NotFound"
  end.

Definition tasks : list (@Task UTC.lib) :=
  [ {| taskArn := TASK_1;
       containers :=
         [ {| name := "web"; lastStatus := "RUNNING";
              cpu := Some "256"; memory := None |};
           {| name := "sidecar"; lastStatus := "PENDING";
              cpu := None; memory := Some "128" |} ];
       createdAt := UTC.at_time 1700000000 |} ].

Definition ssm (id : string) : string + list InstanceInformation :=
  if String.eqb id "i-0aaa" then
    inr [ {| info_InstanceId := "i-0aaa"; info_PingStatus := "Online" |} ]
  else if String.eqb id "i-0bbb" then inl "AccessDeniedException"
  else inr [].

(** The account seen with the given [AWS_ROLE_ARN] and [AWS_PROFILE];
    [AWS_REGION] is not set.  Only the cluster [prod] has instances and
    tasks. *)
Definition world (role profile : option string) : @World UTC.lib :=
  {| getenv := env role profile;
     boto3_Session := fun _ => None;
     session_client := fun _ _ => None;
     assume_role := fun _ _ _ => inr credentials;
     list_clusters := fun _ => inr [PROD; STAGING];
     list_container_instances := fun _ cluster =>
       if String.eqb cluster "prod" then inr [CI_1; CI_2] else inr [];
     describe_container_instances := fun _ _ _ => inr container_instances;
     describe_instances := fun _ ids => reservations ids;
     list_tasks := fun _ cluster =>
       if String.eqb cluster "prod" then inr [TASK_1] else inr [];
     describe_tasks := fun _ _ _ => inr tasks;
     describe_instance_information := fun _ id => ssm id |}.

(** The same account when every ECS listing is refused. *)
Definition denied : @World UTC.lib :=
  {| getenv := env None None;
     boto3_Session := fun _ => None;
     session_client := fun _ _ => None;
     assume_role := fun _ _ _ => inl "AccessDenied";
     list_clusters := fun _ => inl "AccessDeniedException";
     list_container_instances := fun _ _ => inl "AccessDeniedException";
     describe_container_instances := fun _ _ _ =>
       inl "AccessDeniedException";
     describe_instances := fun _ _ => inl "UnauthorizedOperation";
     list_tasks := fun _ _ => inl "AccessDeniedException";
     describe_tasks := fun _ _ _ => inl "AccessDeniedException";
     describe_instance_information := fun _ _ =>
       inl "AccessDeniedException" |}.

Definition session : Session := plain_session (Some "dev") DEFAULT_REGION.

Definition controller : ECSController :=
  {| aws_client := {| profile_name := Some "dev"; region := DEFAULT_REGION |};
     ecs_client := {| client_session := session; client_service := "ecs" |};
     ec2_client := {| client_session := session; client_service := "ec2" |};
     ssm_client := {| client_session := session; client_service := "ssm" |} |}.

(** No configuration file yet, nothing done yet. *)
Definition fresh : state := {| config_file := None; trace := [] |}.

(** A configuration file that selects [cluster]. *)
Definition selected (cluster : string) : state :=
  {| config_file := Some {[ CURRENT_CLUSTER := JStr cluster ]};
     trace := [] |}.
End Sample.

(** The sample account when an instance of [prod] has been terminated: ECS
    still lists its container instance, EC2 returns no reservation for
    it. *)
Module Stale.
Definition container_instances : list ContainerInstance :=
  [ {| ec2InstanceId := "i-0aaa"; status := "ACTIVE";
       runningTasksCount := 2 |};
    {| ec2InstanceId := "i-0ddd"; status := "INACTIVE";
       runningTasksCount := 0 |};
    {| ec2InstanceId := "i-0bbb"; status := "DRAINING";
       runningTasksCount := 0 |} ].

Definition reservations (ids : list string) : string + list Reservation :=
  match ids with
  | [id] => if String.eqb id "i-0ddd" then inr [] else Sample.reservations ids
  | _ => Sample.reservations ids
  end.

Definition world : @World UTC.lib :=
  let base := Sample.world None (Some "dev") in
  {| getenv := getenv base;
     boto3_Session := boto3_Session base;
     session_client := session_client base;
     assume_role := assume_role base;
     list_clusters := list_clusters base;
     list_container_instances := list_container_instances base;
     describe_container_instances := fun _ _ _ => inr container_instances;
     describe_instances := fun _ ids => reservations ids;
     list_tasks := list_tasks base;
     describe_tasks := describe_tasks base;
     describe_instance_information := describe_instance_information base |}.
End Stale.

(** The sample account when AWS_ROLE_ARN names a role that STS refuses. *)
Module Refused.
Definition world : @World UTC.lib :=
  {| getenv := Sample.env (Some Sample.ROLE) None;
     boto3_Session := boto3_Session Sample.denied;
     session_client := session_client Sample.denied;
     assume_role := assume_role Sample.denied;
     list_clusters := list_clusters Sample.denied;
     list_container_instances := list_container_instances Sample.denied;
     describe_container_instances :=
       describe_container_instances Sample.denied;
     describe_instances := describe_instances Sample.denied;
     list_tasks := list_tasks Sample.denied;
     describe_tasks := describe_tasks Sample.denied;
     describe_instance_information :=
       describe_instance_information Sample.denied |}.
End Refused.

(** The records of the two instances of [prod]. *)
Module Records.
Definition first : InstanceInfo.t :=
  {| InstanceInfo.InstanceId := "i-0aaa";
     InstanceInfo.InstanceType := "t3.medium";
     InstanceInfo.State := "running"; InstanceInfo.Status := "ACTIVE";
     InstanceInfo.RunningTasks := 2 |}.

Definition second : InstanceInfo.t :=
  {| InstanceInfo.InstanceId := "i-0bbb";
     InstanceInfo.InstanceType := "t3.large";
     InstanceInfo.State := "stopping"; InstanceInfo.Status := "DRAINING";
     InstanceInfo.RunningTasks := 0 |}.
End Records.

(** * Properties *)

Ltac unfold_M :=
  unfold mbind, mret, mthrow, M_bind, M_ret, M_throw, bind, ret, raise,
    try_except, try_except_ecs, sdk_new, sdk, emit, click_echo, sys_exit,
    index0 in *.

(** ** Splitting at ['/'] *)

Lemma split_not_nil sep s : split sep s <> [].
Proof.
  destruct s as [|c s]; simpl; [discriminate|].
  destruct (Ascii.eqb c sep); [discriminate|].
  destruct (split sep s); discriminate.
Qed.

Lemma split_without sep s : contains sep s = false -> split sep s = [s].
Proof.
  induction s as [|c s IH]; simpl; [reflexivity|].
  intros Hc. apply orb_false_iff in Hc as [Hc Hs].
  rewrite Hc, (IH Hs). reflexivity.
Qed.

Lemma last_item_cons {A} (x : A) l : l <> [] -> last_item (x :: l) = last_item l.
Proof. destruct l; [congruence | reflexivity]. Qed.

Lemma split_with sep s :
  contains sep s = true -> exists x y l, split sep s = x :: y :: l.
Proof.
  induction s as [|c s IH]; simpl; [discriminate|].
  destruct (Ascii.eqb c sep) eqn:Hc; simpl.
  - intros _. pose proof (split_not_nil sep s) as Hn.
    destruct (split sep s) as [|y l]; [congruence|]. eauto.
  - intros Hs. destruct (IH Hs) as (x & y & l & ->). eauto.
Qed.

Lemma split_last_sep s : split_last (String slash s) = split_last s.
Proof.
  unfold split_last. change (split slash (String slash s))
    with (EmptyString :: split slash s).
  rewrite last_item_cons by apply split_not_nil. reflexivity.
Qed.

Lemma split_last_other c s :
  Ascii.eqb c slash = false -> contains slash s = true ->
  split_last (String c s) = split_last s.
Proof.
  intros Hc Hs. unfold split_last. simpl. rewrite Hc.
  destruct (split_with _ _ Hs) as (x & y & l & ->). reflexivity.
Qed.

Lemma split_last_without s : contains slash s = false -> split_last s = s.
Proof. intros Hs. unfold split_last. rewrite split_without by exact Hs. reflexivity. Qed.

Lemma split_last_no_slash s : contains slash (split_last s) = false.
Proof.
  induction s as [|c s IH]; [reflexivity|].
  destruct (Ascii.eqb c slash) eqn:Hc.
  - apply Ascii.eqb_eq in Hc as ->. rewrite split_last_sep. exact IH.
  - destruct (contains slash s) eqn:Hs.
    + rewrite split_last_other by assumption. exact IH.
    + rewrite split_last_without; simpl; rewrite Hc, Hs; reflexivity.
Qed.

Lemma split_last_after s :
  contains slash s = true -> after_last_slash s (split_last s).
Proof.
  intros Hs. split; [apply split_last_no_slash|].
  induction s as [|c s IH]; [discriminate|].
  destruct (contains slash s) eqn:Hs'.
  - destruct (IH eq_refl) as [pre Hpre].
    exists (String c pre).
    destruct (Ascii.eqb c slash) eqn:Hc.
    + apply Ascii.eqb_eq in Hc as ->. rewrite split_last_sep.
      exact (f_equal (String slash) Hpre).
    + rewrite split_last_other by assumption.
      exact (f_equal (String c) Hpre).
  - simpl in Hs. rewrite Hs', orb_false_r in Hs.
    apply Ascii.eqb_eq in Hs as ->. rewrite split_last_sep.
    rewrite split_last_without by exact Hs'. exists EmptyString. reflexivity.
Qed.

Lemma split_last_segment arn : last_segment arn (split_last arn).
Proof.
  unfold last_segment. destruct (contains slash arn) eqn:Hc.
  - apply split_last_after, Hc.
  - apply split_last_without, Hc.
Qed.

Lemma map_split_last_segments arns :
  Forall2 last_segment arns (map split_last arns).
Proof.
  induction arns; simpl; constructor; auto using split_last_segment.
Qed.

(** ** Traces *)

Lemma log_nil st : log [] st = st.
Proof. destruct st. unfold log. simpl. rewrite app_nil_r. reflexivity. Qed.

Lemma log_log evs evs' st : log evs' (log evs st) = log (evs ++ evs') st.
Proof. unfold log. simpl. rewrite app_assoc. reflexivity. Qed.

Lemma bind_return {A B} (m : M A) (k : A -> M B) st a st' :
  m st = (Return a, st') -> (m ≫= k) st = k a st'.
Proof. intros E. unfold mbind, M_bind, bind. rewrite E. reflexivity. Qed.

Lemma bind_raise {A B} (m : M A) (k : A -> M B) st e st' :
  m st = (Raise e, st') -> (m ≫= k) st = (Raise e, st').
Proof. intros E. unfold mbind, M_bind, bind. rewrite E. reflexivity. Qed.

(** ** The queries of the controller *)

Section Queries.
Context `{DatetimeLib} (w : World).

(** C7: [get_clusters] makes the one call [list_clusters] and returns, in
    the order of the response, the part of every cluster ARN after its
    last ['/']. *)
Theorem get_clusters_names (self : ECSController) (arns : list string)
    (st : state) :
  list_clusters w (ecs_client self) = inr arns ->
  exists names,
    get_clusters w self st
    = (Return names, log [Sdk (ListClusters (ecs_client self))] st) /\
    Forall2 last_segment arns names.
Proof.
  intros Hlist. exists (map split_last arns). split.
  - unfold get_clusters. unfold_M. rewrite Hlist. reflexivity.
  - apply map_split_last_segments.
Qed.

(** C8: when [list_container_instances] returns no ARN,
    [get_ec2_instances] returns the empty list and has made no other call;
    when [list_tasks] returns no task, [get_containers] returns the empty
    list and has made no other call. *)
Theorem empty_listings (self : ECSController) (cluster_name : string)
    (st : state) :
  (list_container_instances w (ecs_client self) cluster_name = inr [] ->
   get_ec2_instances w self cluster_name st
   = (Return [],
      log [Sdk (ListContainerInstances (ecs_client self) cluster_name)] st))
  /\
  (list_tasks w (ecs_client self) cluster_name = inr [] ->
   get_containers w self cluster_name st
   = (Return [],
      log [Sdk (ListTasks (ecs_client self) cluster_name)] st)).
Proof.
  split; intros Hlist.
  - unfold get_ec2_instances. unfold_M. rewrite Hlist. reflexivity.
  - unfold get_containers. unfold_M. rewrite Hlist. reflexivity.
Qed.
End Queries.

(** The sample account: two clusters, named after their ARNs. *)
Example get_clusters_sample :
  get_clusters (Sample.world None (Some "dev")) Sample.controller Sample.fresh
  = (Return ["prod"; "staging"],
     {| config_file := None;
        trace := [Sdk (ListClusters (ecs_client Sample.controller))] |}).
Proof. reflexivity. Qed.

Lemma get_clusters_names_witness :
  let w := Sample.world None (Some "dev") in
  let self := Sample.controller in
  list_clusters w (ecs_client self) = inr [Sample.PROD; Sample.STAGING] /\
  exists names,
    get_clusters w self Sample.fresh
    = (Return names, log [Sdk (ListClusters (ecs_client self))] Sample.fresh)
    /\ Forall2 last_segment [Sample.PROD; Sample.STAGING] names.
Proof.
  split; [reflexivity | apply get_clusters_names; reflexivity].
Defined.

Lemma empty_listings_witness :
  let w := Sample.world None (Some "dev") in
  let self := Sample.controller in
  (list_container_instances w (ecs_client self) "staging" = inr [] /\
   list_tasks w (ecs_client self) "staging" = inr []) /\
  get_ec2_instances w self "staging" Sample.fresh
  = (Return [],
     log [Sdk (ListContainerInstances (ecs_client self) "staging")]
       Sample.fresh) /\
  get_containers w self "staging" Sample.fresh
  = (Return [],
     log [Sdk (ListTasks (ecs_client self) "staging")] Sample.fresh).
Proof.
  split; [split; reflexivity|].
  split; apply (empty_listings (Sample.world None (Some "dev"))
                  Sample.controller "staging" Sample.fresh); reflexivity.
Defined.

Section Chains.
Context `{DatetimeLib} (w : World).

Lemma instance_info_run (self : ECSController) (ci : ContainerInstance)
    (st : state) :
  has_first_instance w self ci ->
  exists info,
    instance_info w self ci st
    = (Return info,
       log [Sdk (DescribeInstances (ec2_client self) [ec2InstanceId ci])] st)
    /\ instance_record w self ci info.
Proof.
  intros (r & rs & i & l & Hd & Hi).
  eexists. split.
  - unfold instance_info. unfold_M. rewrite Hd. simpl. rewrite Hi. simpl.
    reflexivity.
  - repeat split. exists r, rs, i, l. auto.
Qed.

Lemma for_each_instance_info (self : ECSController)
    (cis : list ContainerInstance) :
  Forall (has_first_instance w self) cis ->
  forall st,
  exists infos,
    for_each (instance_info w self) cis st
    = (Return infos,
       log (map (fun ci => Sdk (DescribeInstances (ec2_client self)
                                  [ec2InstanceId ci])) cis) st)
    /\ Forall2 (instance_record w self) cis infos.
Proof.
  induction 1 as [|ci cis Hci _ IH]; intros st.
  - exists []. rewrite log_nil. split; [reflexivity | constructor].
  - destruct (instance_info_run self ci st Hci) as (info & Hrun & Hinfo).
    destruct (IH (log [Sdk (DescribeInstances (ec2_client self)
                              [ec2InstanceId ci])] st))
      as (infos & Hrest & Hinfos).
    exists (info :: infos). split; [|constructor; assumption].
    simpl. unfold mbind, M_bind, bind. rewrite Hrun, Hrest, log_log.
    reflexivity.
Qed.

(** C2: when the listing returns ARNs and every call of the chain
    succeeds, [get_ec2_instances] calls [list_container_instances], then
    [describe_container_instances] on exactly the listed ARNs, then
    [describe_instances] once per container instance on its
    [ec2InstanceId], in order, and returns one record per container
    instance with the fields [InstanceId], [Status], [RunningTasks] from
    the container instance and [InstanceType], [State] from the EC2
    response. *)
Theorem get_ec2_instances_chain (self : ECSController)
    (cluster_name : string) (arns : list string)
    (cis : list ContainerInstance) (st : state) :
  arns <> [] ->
  list_container_instances w (ecs_client self) cluster_name = inr arns ->
  describe_container_instances w (ecs_client self) cluster_name arns
  = inr cis ->
  Forall (has_first_instance w self) cis ->
  exists infos,
    get_ec2_instances w self cluster_name st
    = (Return infos,
       log (Sdk (ListContainerInstances (ecs_client self) cluster_name)
            :: Sdk (DescribeContainerInstances (ecs_client self)
                      cluster_name arns)
            :: map (fun ci => Sdk (DescribeInstances (ec2_client self)
                                     [ec2InstanceId ci])) cis) st)
    /\ Forall2 (instance_record w self) cis infos.
Proof.
  intros Hne Hlist Hdesc Hall.
  destruct (for_each_instance_info self cis Hall
              (log [Sdk (ListContainerInstances (ecs_client self)
                           cluster_name);
                    Sdk (DescribeContainerInstances (ecs_client self)
                           cluster_name arns)] st))
    as (infos & Hrun & Hinfos).
  exists infos. split; [|exact Hinfos].
  unfold get_ec2_instances. unfold_M. rewrite Hlist.
  destruct arns as [|arn arns]; [congruence|].
  rewrite Hdesc. rewrite log_log. simpl app.
  rewrite Hrun, log_log. reflexivity.
Qed.
End Chains.

(** The sample cluster [prod]: two container instances, hence two records. *)
Example get_ec2_instances_sample :
  fst (get_ec2_instances (Sample.world None (Some "dev")) Sample.controller
         "prod" Sample.fresh)
  = Return
      [ {| InstanceInfo.InstanceId := "i-0aaa";
           InstanceInfo.InstanceType := "t3.medium";
           InstanceInfo.State := "running";
           InstanceInfo.Status := "ACTIVE";
           InstanceInfo.RunningTasks := 2 |};
        {| InstanceInfo.InstanceId := "i-0bbb";
           InstanceInfo.InstanceType := "t3.large";
           InstanceInfo.State := "stopping";
           InstanceInfo.Status := "DRAINING";
           InstanceInfo.RunningTasks := 0 |} ].
Proof. reflexivity. Qed.

Lemma sample_first_instances :
  Forall (has_first_instance (Sample.world None (Some "dev"))
            Sample.controller) Sample.container_instances.
Proof.
  repeat constructor; do 4 eexists; split; reflexivity.
Qed.

Lemma get_ec2_instances_chain_witness :
  let w := Sample.world None (Some "dev") in
  let self := Sample.controller in
  let arns := [Sample.CI_1; Sample.CI_2] in
  let cis := Sample.container_instances in
  (arns <> [] /\
   list_container_instances w (ecs_client self) "prod" = inr arns /\
   describe_container_instances w (ecs_client self) "prod" arns = inr cis /\
   Forall (has_first_instance w self) cis) /\
  exists infos,
    get_ec2_instances w self "prod" Sample.fresh
    = (Return infos,
       log (Sdk (ListContainerInstances (ecs_client self) "prod")
            :: Sdk (DescribeContainerInstances (ecs_client self) "prod" arns)
            :: map (fun ci => Sdk (DescribeInstances (ec2_client self)
                                     [ec2InstanceId ci])) cis) Sample.fresh)
    /\ Forall2 (instance_record w self) cis infos.
Proof.
  split.
  - split; [discriminate|]. split; [reflexivity|]. split; [reflexivity|].
    exact sample_first_instances.
  - apply get_ec2_instances_chain;
      [discriminate | reflexivity | reflexivity | exact sample_first_instances].
Defined.

(** ** Searching the records *)

Lemma find_no_match (instance_id : string) (l : list InstanceInfo.t) :
  (forall i, In i l -> InstanceInfo.InstanceId i <> instance_id) ->
  find (fun i => String.eqb (InstanceInfo.InstanceId i) instance_id) l = None.
Proof.
  induction l as [|j l IH]; intros Hnone; [reflexivity|]. simpl.
  destruct (String.eqb_spec (InstanceInfo.InstanceId j) instance_id) as [E|_].
  - exfalso. apply (Hnone j); [left; reflexivity | exact E].
  - apply IH. intros i Hi. apply Hnone. right. exact Hi.
Qed.

Lemma find_first_match (instance_id : string) (before : list InstanceInfo.t)
    (i : InstanceInfo.t) (after : list InstanceInfo.t) :
  InstanceInfo.InstanceId i = instance_id ->
  (forall j, In j before -> InstanceInfo.InstanceId j <> instance_id) ->
  find (fun i => String.eqb (InstanceInfo.InstanceId i) instance_id)
    (before ++ i :: after) = Some i.
Proof.
  intros Hid. induction before as [|j l IH]; intros Hbefore; simpl.
  - rewrite Hid, String.eqb_refl. reflexivity.
  - destruct (String.eqb_spec (InstanceInfo.InstanceId j) instance_id)
      as [E|_].
    + exfalso. apply (Hbefore j); [left; reflexivity | exact E].
    + apply IH. intros k Hk. apply Hbefore. right. exact Hk.
Qed.

Section Containers.
Context `{DatetimeLib} (w : World).

(** C6: when the listing returns task ARNs and [describe_tasks] succeeds on
    them, [get_containers] calls [list_tasks], then [describe_tasks] on
    those ARNs, and returns, task after task, one record per container:
    the container's name, its [lastStatus], the last segment of the task's
    ARN, the container's cpu and memory (['N/A'] when absent) and the
    task's [createdAt] brought through [timestamp] and [fromtimestamp] and
    rendered by [strftime] with ['%Y-%m-%d %H:%M:%S']. *)
Theorem get_containers_records (self : ECSController)
    (cluster_name : string) (arns : list string) (tasks : list Task)
    (st : state) :
  arns <> [] ->
  list_tasks w (ecs_client self) cluster_name = inr arns ->
  describe_tasks w (ecs_client self) cluster_name arns = inr tasks ->
  exists task_id : Task -> string,
    (forall task, last_segment (taskArn task) (task_id task)) /\
    get_containers w self cluster_name st
    = (Return
         (concat
            (map (fun task =>
                    map (fun container =>
                           {| ContainerInfo.Name := name container;
                              ContainerInfo.Status := lastStatus container;
                              ContainerInfo.TaskId := task_id task;
                              ContainerInfo.CPU :=
                                match cpu container with
                                | Some v => v
                                | None => "N/A"
                                end;
                              ContainerInfo.Memory :=
                                match memory container with
                                | Some v => v
                                | None => "N/A"
                                end;
                              ContainerInfo.Created :=
                                strftime
                                  (fromtimestamp (timestamp (createdAt task)))
                                  "%Y-%m-%d %H:%M:%S" |})
                      (containers task))
               tasks)),
       log [Sdk (ListTasks (ecs_client self) cluster_name);
            Sdk (DescribeTasks (ecs_client self) cluster_name arns)] st).
Proof.
  intros Hne Hlist Hdesc.
  exists (fun task => split_last (taskArn task)).
  split; [intros task; apply split_last_segment|].
  unfold get_containers. unfold_M. rewrite Hlist.
  destruct arns as [|arn arns]; [congruence|].
  rewrite Hdesc, log_log. reflexivity.
Qed.

(** C9: on the records [get_ec2_instances] returns, [get_instance_details]
    returns [None] when none has the given [InstanceId], and the first
    record that has it otherwise; it makes no further call. *)
Theorem get_instance_details_first_match (self : ECSController)
    (cluster_name instance_id : string) (instances : list InstanceInfo.t)
    (st st' : state) :
  get_ec2_instances w self cluster_name st = (Return instances, st') ->
  ((forall i, In i instances -> InstanceInfo.InstanceId i <> instance_id) ->
   get_instance_details w self cluster_name instance_id st
   = (Return None, st')) /\
  (forall before i after,
     instances = before ++ i :: after ->
     InstanceInfo.InstanceId i = instance_id ->
     (forall j, In j before -> InstanceInfo.InstanceId j <> instance_id) ->
     get_instance_details w self cluster_name instance_id st
     = (Return (Some i), st')).
Proof.
  intros Hrun.
  assert (Hdet : get_instance_details w self cluster_name instance_id st
                 = (Return (find (fun i => String.eqb
                                             (InstanceInfo.InstanceId i)
                                             instance_id) instances), st')).
  { unfold get_instance_details.
    unfold mbind, M_bind, bind, try_except. rewrite Hrun. reflexivity. }
  rewrite Hdet. split.
  - intros Hnone. rewrite find_no_match by exact Hnone. reflexivity.
  - intros before i after -> Hid Hbefore.
    rewrite find_first_match by assumption. reflexivity.
Qed.
End Containers.

(** The sample cluster [prod]: one task with two containers. *)
Example get_containers_sample :
  fst (get_containers (Sample.world None (Some "dev")) Sample.controller
         "prod" Sample.fresh)
  = Return
      [ {| ContainerInfo.Name := "web"; ContainerInfo.Status := "RUNNING";
           ContainerInfo.TaskId := "0f3a"; ContainerInfo.CPU := "256";
           ContainerInfo.Memory := "N/A";
           ContainerInfo.Created := "2023-11-14 22:13:20" |};
        {| ContainerInfo.Name := "sidecar"; ContainerInfo.Status := "PENDING";
           ContainerInfo.TaskId := "0f3a"; ContainerInfo.CPU := "N/A";
           ContainerInfo.Memory := "128";
           ContainerInfo.Created := "2023-11-14 22:13:20" |} ].
Proof. vm_compute. reflexivity. Qed.

Lemma get_containers_records_witness :
  let w := Sample.world None (Some "dev") in
  let self := Sample.controller in
  let arns := [Sample.TASK_1] in
  (arns <> [] /\
   list_tasks w (ecs_client self) "prod" = inr arns /\
   describe_tasks w (ecs_client self) "prod" arns = inr Sample.tasks) /\
  exists task_id : @Task UTC.lib -> string,
    (forall task, last_segment (taskArn task) (task_id task)) /\
    fst (get_containers w self "prod" Sample.fresh)
    = Return
        (concat
           (map (fun task =>
                   map (fun container =>
                          {| ContainerInfo.Name := name container;
                             ContainerInfo.Status := lastStatus container;
                             ContainerInfo.TaskId := task_id task;
                             ContainerInfo.CPU := default "N/A" (cpu container);
                             ContainerInfo.Memory :=
                               default "N/A" (memory container);
                             ContainerInfo.Created :=
                               UTC.format (createdAt task)
                                 "%Y-%m-%d %H:%M:%S" |})
                     (containers task))
              Sample.tasks)).
Proof.
  split; [split; [discriminate | split; reflexivity]|].
  destruct (get_containers_records (Sample.world None (Some "dev"))
              Sample.controller "prod" [Sample.TASK_1] Sample.tasks
              Sample.fresh) as (task_id & Hid & Hrun);
    [discriminate | reflexivity | reflexivity |].
  exists task_id. split; [exact Hid|]. rewrite Hrun. reflexivity.
Defined.

Lemma get_instance_details_first_match_witness :
  let w := Sample.world None (Some "dev") in
  let self := Sample.controller in
  let first :=
    {| InstanceInfo.InstanceId := "i-0aaa";
       InstanceInfo.InstanceType := "t3.medium";
       InstanceInfo.State := "running"; InstanceInfo.Status := "ACTIVE";
       InstanceInfo.RunningTasks := 2 |} in
  let second :=
    {| InstanceInfo.InstanceId := "i-0bbb";
       InstanceInfo.InstanceType := "t3.large";
       InstanceInfo.State := "stopping"; InstanceInfo.Status := "DRAINING";
       InstanceInfo.RunningTasks := 0 |} in
  let st' := snd (get_ec2_instances w self "prod" Sample.fresh) in
  get_ec2_instances w self "prod" Sample.fresh
  = (Return [first; second], st') /\
  get_instance_details w self "prod" "i-0ccc" Sample.fresh
  = (Return None, st') /\
  get_instance_details w self "prod" "i-0bbb" Sample.fresh
  = (Return (Some second), st').
Proof.
  intros w self first second st'.
  assert (Hrun : get_ec2_instances w self "prod" Sample.fresh
                 = (Return [first; second], st')) by reflexivity.
  split; [exact Hrun|].
  split.
  - apply (get_instance_details_first_match w self "prod" "i-0ccc"
             [first; second] Sample.fresh st' Hrun).
    intros i [<-|[<-|[]]]; discriminate.
  - apply (proj2 (get_instance_details_first_match w self "prod" "i-0bbb"
                    [first; second] Sample.fresh st' Hrun) [first] second []);
      [reflexivity | reflexivity |].
    intros j [<-|[]]. discriminate.
Defined.

(** ** Exceptions of boto3 *)

Lemma events_of_log {A} (m : M A) (st : state) (evs : list event) :
  snd (m st) = log evs st -> events_of m st = evs.
Proof.
  intros E. unfold events_of. rewrite E. simpl. apply drop_app_length.
Qed.

Section Reports.
Context `{DatetimeLib} (w : World).

Lemma reports_ret {A} g (a : A) : reports w g (mret a : M A).
Proof.
  intros st. exists []. split; [symmetry; apply log_nil|].
  intros c text [].
Qed.

Lemma reports_sdk {A} (c : call) (r : string + A) :
  raised w c = match r with inl t => Some t | inr _ => None end ->
  reports w (fun t => t) (sdk c r).
Proof.
  intros Hr st. exists [Sdk c]. split; [reflexivity|].
  intros c' text [E|[]] Hraised. injection E as <-.
  exists SdkError. unfold sdk. simpl.
  destruct r as [t|a]; [congruence | rewrite Hr in Hraised; discriminate].
Qed.

Lemma reports_index0 {A} g (l : list A) : reports w g (index0 l).
Proof.
  intros st. exists []. split.
  - unfold index0. destruct (first_item l); symmetry; apply log_nil.
  - intros c text [].
Qed.

Lemma reports_bind {A B} g (m : M A) (k : A -> M B) :
  reports w g m -> (forall a, reports w g (k a)) -> reports w g (m ≫= k).
Proof.
  intros Hm Hk st. destruct (Hm st) as (evs & Hs & Hr).
  unfold mbind, M_bind, bind.
  destruct (m st) as [[a|e] st1] eqn:E; simpl in Hs, Hr.
  - destruct (Hk a st1) as (evs' & Hs' & Hr').
    exists (evs ++ evs'). split.
    + rewrite Hs', Hs. apply log_log.
    + intros c text Hin Hraised. apply in_app_or in Hin as [Hin|Hin].
      * destruct (Hr c text Hin Hraised) as (cls & Hcls). discriminate.
      * exact (Hr' c text Hin Hraised).
  - exists evs. split; [exact Hs|]. intros c text Hin Hraised.
    destruct (Hr c text Hin Hraised) as (cls & Hcls).
    exists cls. injection Hcls as ->. reflexivity.
Qed.

Lemma reports_for_each {A B} g (f : A -> M B) (l : list A) :
  (forall x, reports w g (f x)) -> reports w g (for_each f l).
Proof.
  intros Hf. induction l as [|x l IH]; simpl.
  - apply reports_ret.
  - apply reports_bind; [apply Hf|]. intros y.
    apply reports_bind; [apply IH|]. intros ys. apply reports_ret.
Qed.

(** [try: body except Exception as e: raise ECSCommandError(prefix + str(e))]
    keeps the text and puts [prefix] before it. *)
Lemma reports_wrap {A} g (prefix : string) (body : M A) (st : state) :
  reports w g body ->
  exists evs,
    snd (try_except body
           (fun text =>
              mthrow (Exception_ ECSCommandError (prefix +:+ text))) st)
    = log evs st /\
    forall c text,
      In (Sdk c) evs -> raised w c = Some text ->
      fst (try_except body
             (fun text =>
                mthrow (Exception_ ECSCommandError (prefix +:+ text))) st)
      = Raise (Exception_ ECSCommandError (prefix +:+ g text)).
Proof.
  intros Hb. destruct (Hb st) as (evs & Hs & Hr). exists evs.
  unfold try_except, mthrow, M_throw, raise.
  destruct (body st) as [[a|[cls t|code]] st1] eqn:E; simpl in *;
    (split; [exact Hs|]); intros c text Hin Hraised;
    destruct (Hr c text Hin Hraised) as (cls' & Hcls); congruence.
Qed.

Lemma reports_wrapped {A} g (prefix : string) (body : M A) :
  reports w g body ->
  reports w (fun t => prefix +:+ g t)
    (try_except body
       (fun text => mthrow (Exception_ ECSCommandError (prefix +:+ text)))).
Proof.
  intros Hb st. destruct (reports_wrap g prefix body st Hb) as (evs & Hs & Hr).
  exists evs. split; [exact Hs|]. intros c text Hin Hraised.
  exists ECSCommandError. exact (Hr c text Hin Hraised).
Qed.
End Reports.

Section Wrapping.
Context `{DatetimeLib} (w : World).

Lemma reports_instance_info (self : ECSController) (ci : ContainerInstance) :
  reports w (fun t => t) (instance_info w self ci).
Proof.
  unfold instance_info.
  apply reports_bind; [apply reports_sdk; reflexivity|]. intros resp.
  apply reports_bind; [apply reports_index0|]. intros r.
  apply reports_bind; [apply reports_index0|]. intros i.
  apply reports_ret.
Qed.

Lemma reports_get_ec2_instances (self : ECSController) (cluster_name : string) :
  reports w (fun t => "Failed to get EC2 instances: " +:+ t)
    (get_ec2_instances w self cluster_name).
Proof.
  unfold get_ec2_instances. apply (reports_wrapped w (fun t => t)).
  apply reports_bind; [apply reports_sdk; reflexivity|].
  intros [|arn arns]; [apply reports_ret|].
  apply reports_bind; [apply reports_sdk; reflexivity|]. intros cis.
  apply reports_for_each. intros ci. apply reports_instance_info.
Qed.

(** C3, as the code has it: in [get_clusters], [get_ec2_instances],
    [get_containers] and [get_instance_details], an exception raised by any
    boto3 call the operation made reaches the caller as an ECSCommandError
    whose message is the operation's prefix followed by the text of that
    exception ([get_instance_details] puts its prefix before the message of
    [get_ec2_instances]); [check_ssm_status] returns [False] instead. *)
Theorem sdk_errors_wrapped (self : ECSController)
    (cluster_name instance_id : string) (st : state) (c : call)
    (text : string) :
  raised w c = Some text ->
  (In (Sdk c) (events_of (get_clusters w self) st) ->
   fst (get_clusters w self st)
   = Raise (Exception_ ECSCommandError
              ("Failed to get clusters: " +:+ text))) /\
  (In (Sdk c) (events_of (get_ec2_instances w self cluster_name) st) ->
   fst (get_ec2_instances w self cluster_name st)
   = Raise (Exception_ ECSCommandError
              ("Failed to get EC2 instances: " +:+ text))) /\
  (In (Sdk c) (events_of (get_containers w self cluster_name) st) ->
   fst (get_containers w self cluster_name st)
   = Raise (Exception_ ECSCommandError
              ("Failed to get containers: " +:+ text))) /\
  (In (Sdk c)
      (events_of (get_instance_details w self cluster_name instance_id) st) ->
   fst (get_instance_details w self cluster_name instance_id st)
   = Raise (Exception_ ECSCommandError
              ("Failed to get instance details: "
                 +:+ "Failed to get EC2 instances: " +:+ text))) /\
  (In (Sdk c) (events_of (check_ssm_status w self instance_id) st) ->
   fst (check_ssm_status w self instance_id st) = Return false).
Proof.
  intros Hraised. repeat split.
  - unfold get_clusters.
    match goal with |- context [try_except ?b _] =>
      destruct (reports_wrap w (fun t => t) "Failed to get clusters: " b st)
        as (evs & Hs & Hr) end.
    { apply reports_bind; [apply reports_sdk; reflexivity|].
      intros arns. apply reports_ret. }
    rewrite (events_of_log _ _ _ Hs). intros Hin. exact (Hr c text Hin Hraised).
  - destruct (reports_get_ec2_instances self cluster_name st)
      as (evs & Hs & Hr).
    rewrite (events_of_log _ _ _ Hs). intros Hin.
    destruct (Hr c text Hin Hraised) as (cls & Hcls).
    revert Hcls. unfold get_ec2_instances, try_except, mthrow, M_throw, raise.
    match goal with |- context [fst (match ?b with _ => _ end)] =>
      destruct b as [[a|[cls' t|code]] st1] end; simpl; congruence.
  - unfold get_containers.
    match goal with |- context [try_except ?b _] =>
      destruct (reports_wrap w (fun t => t) "Failed to get containers: " b st)
        as (evs & Hs & Hr) end.
    { apply reports_bind; [apply reports_sdk; reflexivity|].
      intros [|arn arns]; [apply reports_ret|].
      apply reports_bind; [apply reports_sdk; reflexivity|].
      intros tasks. apply reports_ret. }
    rewrite (events_of_log _ _ _ Hs). intros Hin. exact (Hr c text Hin Hraised).
  - unfold get_instance_details.
    match goal with |- context [try_except ?b _] =>
      destruct (reports_wrap w
                  (fun t => "Failed to get EC2 instances: " +:+ t)
                  "Failed to get instance details: " b st)
        as (evs & Hs & Hr) end.
    { apply reports_bind; [apply reports_get_ec2_instances|].
      intros instances. apply reports_ret. }
    rewrite (events_of_log _ _ _ Hs). intros Hin. exact (Hr c text Hin Hraised).
  - unfold events_of, check_ssm_status. unfold_M.
    destruct (describe_instance_information w (ssm_client self) instance_id)
      as [t|l] eqn:E; simpl; [reflexivity|].
    rewrite drop_app_length. intros [E'|[]]. injection E' as <-.
    simpl in Hraised. rewrite E in Hraised. discriminate.
Qed.
End Wrapping.

(** When the SSM call is refused, [check_ssm_status] answers [False]: the
    exception does not reach the caller. *)
Lemma check_ssm_status_discards_sdk_error :
  let c := DescribeInstanceInformation (ssm_client Sample.controller)
             "i-0aaa" in
  raised Sample.denied c = Some "AccessDeniedException" /\
  events_of (check_ssm_status Sample.denied Sample.controller "i-0aaa")
    Sample.fresh = [Sdk c] /\
  fst (check_ssm_status Sample.denied Sample.controller "i-0aaa" Sample.fresh)
  = Return false /\
  ~ (exists msg,
       fst (check_ssm_status Sample.denied Sample.controller "i-0aaa"
              Sample.fresh)
       = Raise (Exception_ ECSCommandError msg)).
Proof.
  intros c. split; [reflexivity|]. split; [reflexivity|].
  split; [reflexivity|]. intros (msg & Hmsg). discriminate.
Qed.

Lemma sdk_errors_wrapped_witness :
  let w := Sample.denied in
  let self := Sample.controller in
  (raised w (ListClusters (ecs_client self)) = Some "AccessDeniedException" /\
   raised w (ListContainerInstances (ecs_client self) "prod")
   = Some "AccessDeniedException") /\
  fst (get_clusters w self Sample.fresh)
  = Raise (Exception_ ECSCommandError
             "Failed to get clusters: AccessDeniedException") /\
  fst (get_ec2_instances w self "prod" Sample.fresh)
  = Raise (Exception_ ECSCommandError
             "Failed to get EC2 instances: AccessDeniedException") /\
  fst (get_instance_details w self "prod" "i-0aaa" Sample.fresh)
  = Raise (Exception_ ECSCommandError
             "Failed to get instance details: Failed to get EC2 instances: AccessDeniedException").
Proof.
  intros w self. split; [split; reflexivity|].
  pose proof (sdk_errors_wrapped w self "prod" "i-0aaa" Sample.fresh
                (ListClusters (ecs_client self)) "AccessDeniedException"
                eq_refl) as (Hclusters & _).
  pose proof (sdk_errors_wrapped w self "prod" "i-0aaa" Sample.fresh
                (ListContainerInstances (ecs_client self) "prod")
                "AccessDeniedException" eq_refl)
    as (_ & Hec2 & _ & Hdetails & _).
  split; [apply Hclusters; left; reflexivity|].
  split; [apply Hec2; left; reflexivity|].
  apply Hdetails; left; reflexivity.
Defined.

(** ** The configuration file *)

Lemma reachable_single_key (f : option (gmap string json)) :
  reachable f -> exists config, f = Some config /\ dom config = {[ CURRENT_CLUSTER ]}.
Proof.
  induction 1 as [st st' Hnone Hrun | st r st' _ IH Hrun
                 | st r st' _ IH Hrun | cluster_name st r st' _ IH Hrun].
  - unfold ClusterConfig_init, _ensure_config_exists in Hrun.
    rewrite Hnone in Hrun. injection Hrun as <-. simpl.
    eexists. split; [reflexivity|]. apply dom_singleton_L.
  - destruct IH as (config & Hfile & Hdom).
    unfold ClusterConfig_init, _ensure_config_exists in Hrun.
    rewrite Hfile in Hrun. injection Hrun as _ <-. eauto.
  - destruct IH as (config & Hfile & Hdom).
    unfold get_current_cluster, _load_config in Hrun. unfold_M.
    rewrite Hfile in Hrun. injection Hrun as _ <-. eauto.
  - destruct IH as (config & Hfile & Hdom).
    unfold set_current_cluster, _load_config, _save_config in Hrun. unfold_M.
    rewrite Hfile in Hrun. injection Hrun as _ <-. simpl.
    eexists. split; [reflexivity|]. rewrite dom_insert_L, Hdom. set_solver.
Qed.

(** C4: where there is no file, [_ensure_config_exists] writes
    [{'current-cluster': None}]; [get_current_cluster] writes nothing and
    its result depends on the key ['current-cluster'] alone;
    [set_current_cluster] stores its argument under that key and leaves
    every other key as it was; and every file reachable from the initial
    one holds exactly the key ['current-cluster']. *)
Theorem config_single_key :
  (forall st,
     config_file st = None ->
     _ensure_config_exists st
     = (Return tt,
        {| config_file := Some {[ CURRENT_CLUSTER := JNull ]};
           trace := trace st ++ [WriteConfig {[ CURRENT_CLUSTER := JNull ]}] |}))
  /\
  (forall st, snd (get_current_cluster st) = st) /\
  (forall (c1 c2 : gmap string json) t1 t2,
     c1 !! CURRENT_CLUSTER = c2 !! CURRENT_CLUSTER ->
     fst (get_current_cluster {| config_file := Some c1; trace := t1 |})
     = fst (get_current_cluster {| config_file := Some c2; trace := t2 |}))
  /\
  (forall cluster_name st (config : gmap string json),
     config_file st = Some config ->
     exists config' : gmap string json,
       set_current_cluster cluster_name st
       = (Return tt,
          {| config_file := Some config';
             trace := trace st ++ [WriteConfig config'] |}) /\
       config' !! CURRENT_CLUSTER = Some (JStr cluster_name) /\
       forall k, k <> CURRENT_CLUSTER -> config' !! k = config !! k)
  /\
  (forall f,
     reachable f ->
     exists config : gmap string json,
       f = Some config /\ dom config = {[ CURRENT_CLUSTER ]}).
Proof.
  split; [|split; [|split; [|split]]].
  - intros st Hnone. unfold _ensure_config_exists, _save_config.
    rewrite Hnone. reflexivity.
  - intros st. unfold get_current_cluster, _load_config. unfold_M.
    destruct (config_file st); reflexivity.
  - intros c1 c2 t1 t2 Hkey.
    unfold get_current_cluster, _load_config. unfold_M. simpl.
    rewrite Hkey. reflexivity.
  - intros cluster_name st config Hfile.
    exists (<[ CURRENT_CLUSTER := JStr cluster_name ]> config).
    split; [|split].
    + unfold set_current_cluster, _load_config, _save_config. unfold_M.
      rewrite Hfile. reflexivity.
    + apply lookup_insert_eq.
    + intros k Hk. apply lookup_insert_ne. congruence.
  - exact reachable_single_key.
Qed.

Lemma config_single_key_witness :
  let f := Some (<[ CURRENT_CLUSTER := JStr "prod" ]>
                   {[ CURRENT_CLUSTER := JNull ]} : gmap string json) in
  reachable f /\
  exists config : gmap string json,
    f = Some config /\ dom config = {[ CURRENT_CLUSTER ]}.
Proof.
  intros f.
  assert (Hf : reachable f).
  { apply (reach_set "prod"
             {| config_file := Some {[ CURRENT_CLUSTER := JNull ]};
                trace := [WriteConfig {[ CURRENT_CLUSTER := JNull ]}] |}
             (Return tt)
             {| config_file := f;
                trace := [WriteConfig {[ CURRENT_CLUSTER := JNull ]};
                          WriteConfig (<[ CURRENT_CLUSTER := JStr "prod" ]>
                                         {[ CURRENT_CLUSTER := JNull ]})] |});
      [|reflexivity].
    apply (reach_initial Sample.fresh
             {| config_file := Some {[ CURRENT_CLUSTER := JNull ]};
                trace := [WriteConfig {[ CURRENT_CLUSTER := JNull ]}] |});
      reflexivity. }
  split; [exact Hf|].
  apply (proj2 (proj2 (proj2 (proj2 config_single_key))) f Hf).
Defined.

(** ** Credentials *)

Section Credentials.
Context `{DatetimeLib} (w : World).



End Credentials.

(** The empty string counts as not set.  AWS_ROLE_ARN empty: no role is
    assumed, the clients are made from the plain session.  AWS_PROFILE
    empty: [authenticate] calls STS from the session of the region alone. *)
Example empty_role_arn_plain_session :
  let w := Sample.world (Some "") (Some "dev") in
  let w' := Sample.world (Some Sample.ROLE) (Some "") in
  let session := plain_session (Some "dev") "ap-southeast-1" in
  (getenv w "AWS_ROLE_ARN" = Some "" /\
   _initialize_aws_clients w Sample.fresh
   = (Return (controller_on {| profile_name := Some "dev";
                               region := "ap-southeast-1" |} session),
      {| config_file := Some {[ CURRENT_CLUSTER := JNull ]};
         trace := Sdk (NewSession session) :: client_calls session
                  ++ [WriteConfig {[ CURRENT_CLUSTER := JNull ]}] |}) /\
   ~ (exists c role_arn session_name,
        In (Sdk (AssumeRole c role_arn session_name))
          (trace (snd (_initialize_aws_clients w Sample.fresh))))) /\
  (getenv w' "AWS_PROFILE" = Some "" /\
   events_of (authenticate w' (AWSClient_init w' None) Sample.ROLE
                "AssumeRoleSession") Sample.fresh
   = Sdk (NewSession (region_session "ap-southeast-1"))
     :: tl (authenticate_calls
              {| profile_name := Some ""; region := "ap-southeast-1" |}
              Sample.ROLE "AssumeRoleSession" Sample.credentials) /\
   base_session {| profile_name := Some ""; region := "ap-southeast-1" |}
   = region_session "ap-southeast-1").
Proof.
  intros w w' session. split; split; try reflexivity.
  - split; [reflexivity|].
    intros (c & role_arn & session_name & Hin). simpl in Hin.
    repeat (destruct Hin as [Hin|Hin]; [discriminate|]). exact Hin.
  - split; reflexivity.
Qed.


(** ** Operations that only call boto3 *)

Lemma calm_ret {A} (a : A) : calm (mret a : M A).
Proof.
  intros st. exists []. split; [symmetry; apply log_nil|].
  split; [reflexivity | discriminate].
Qed.

Lemma calm_throw {A} cls text : calm (mthrow (Exception_ cls text) : M A).
Proof.
  intros st. exists []. split; [symmetry; apply log_nil|].
  split; [reflexivity | discriminate].
Qed.

Lemma calm_sdk {A} (c : call) (r : string + A) : calm (sdk c r).
Proof.
  intros st. exists [Sdk c]. split; [reflexivity|].
  split; [reflexivity|]. unfold sdk. simpl. destruct r; discriminate.
Qed.

Lemma calm_index0 {A} (l : list A) : calm (index0 l).
Proof.
  unfold index0. destruct (first_item l); [apply calm_ret | apply calm_throw].
Qed.

Lemma calm_bind {A B} (m : M A) (k : A -> M B) :
  calm m -> (forall a, calm (k a)) -> calm (m ≫= k).
Proof.
  intros Hm Hk st. destruct (Hm st) as (evs & Hs & Hq & Hx).
  unfold mbind, M_bind, bind.
  destruct (m st) as [[a|e] st1] eqn:E; simpl in Hs, Hx.
  - destruct (Hk a st1) as (evs' & Hs' & Hq' & Hx').
    exists (evs ++ evs'). split; [rewrite Hs', Hs; apply log_log|].
    split; [|exact Hx'].
    rewrite forallb_app, Hq, Hq'. reflexivity.
  - exists evs. split; [exact Hs|]. split; [exact Hq|].
    simpl. intros code Hcode. apply (Hx code). congruence.
Qed.

Lemma calm_for_each {A B} (f : A -> M B) (l : list A) :
  (forall x, calm (f x)) -> calm (for_each f l).
Proof.
  intros Hf. induction l as [|x l IH]; simpl.
  - apply calm_ret.
  - apply calm_bind; [apply Hf|]. intros y.
    apply calm_bind; [apply IH|]. intros ys. apply calm_ret.
Qed.

Lemma calm_try_except {A} (body : M A) (handler : string -> M A) :
  calm body -> (forall text, calm (handler text)) ->
  calm (try_except body handler).
Proof.
  intros Hb Hh st. destruct (Hb st) as (evs & Hs & Hq & Hx).
  unfold try_except.
  destruct (body st) as [[a|[cls t|code]] st1] eqn:E; simpl in Hs, Hx.
  - exists evs. auto.
  - destruct (Hh t st1) as (evs' & Hs' & Hq' & Hx').
    exists (evs ++ evs'). split; [rewrite Hs', Hs; apply log_log|].
    split; [|exact Hx'].
    rewrite forallb_app, Hq, Hq'. reflexivity.
  - exfalso. apply (Hx code). reflexivity.
Qed.

(** A wrapper [except Exception as e: raise ECSCommandError(...)] around a
    calm body raises nothing but ECSCommandError. *)
Lemma wrapped_raises {A} (body : M A) (wrap : string -> string) st e st' :
  calm body ->
  try_except body
    (fun text => mthrow (Exception_ ECSCommandError (wrap text))) st
  = (Raise e, st') ->
  exists text, e = Exception_ ECSCommandError text.
Proof.
  intros Hb. destruct (Hb st) as (evs & _ & _ & Hx).
  unfold try_except, mthrow, M_throw, raise.
  destruct (body st) as [[a|[cls t|code]] st1]; simpl in Hx.
  - discriminate.
  - intros E. injection E as <- _. eauto.
  - exfalso. apply (Hx code). reflexivity.
Qed.

Section Calm.
Context `{DatetimeLib} (w : World).

Lemma calm_new_session s : calm (new_session w s).
Proof.
  unfold new_session, sdk_new. apply calm_bind; [apply calm_sdk|].
  intros _. apply calm_ret.
Qed.

Lemma calm_new_client s service : calm (new_client w s service).
Proof.
  unfold new_client, sdk_new. apply calm_bind; [apply calm_sdk|].
  intros _. apply calm_ret.
Qed.

Lemma calm_authenticate self role_arn session_name :
  calm (authenticate w self role_arn session_name).
Proof.
  unfold authenticate. apply calm_try_except; [|intros; apply calm_throw].
  apply calm_bind.
  { destruct (truthy (profile_name self)); apply calm_new_session. }
  intros session. apply calm_bind; [apply calm_new_client|].
  intros sts. apply calm_bind; [apply calm_sdk|].
  intros creds. apply calm_new_session.
Qed.

Lemma calm_connect : calm (connect w).
Proof.
  unfold connect. apply calm_bind.
  { destruct (truthy (getenv w "AWS_ROLE_ARN"));
      [apply calm_authenticate | apply calm_new_session]. }
  intros session. apply calm_bind; [apply calm_new_client|].
  intros ecs. apply calm_bind; [apply calm_new_client|].
  intros ec2. apply calm_bind; [apply calm_new_client|].
  intros ssm. apply calm_ret.
Qed.

Lemma calm_instance_info self ci : calm (instance_info w self ci).
Proof.
  unfold instance_info. apply calm_bind; [apply calm_sdk|]. intros resp.
  apply calm_bind; [apply calm_index0|]. intros r.
  apply calm_bind; [apply calm_index0|]. intros i. apply calm_ret.
Qed.

Lemma calm_get_ec2_instances self cluster_name :
  calm (get_ec2_instances w self cluster_name).
Proof.
  unfold get_ec2_instances.
  apply calm_try_except; [|intros; apply calm_throw].
  apply calm_bind; [apply calm_sdk|].
  intros [|arn arns]; [apply calm_ret|].
  apply calm_bind; [apply calm_sdk|]. intros cis.
  apply calm_for_each. intros ci. apply calm_instance_info.
Qed.

Lemma calm_get_instance_details_body self cluster_name instance_id :
  calm (instances ← get_ec2_instances w self cluster_name;
        mret (find (fun instance =>
                      String.eqb (InstanceInfo.InstanceId instance)
                        instance_id) instances)).
Proof.
  apply calm_bind; [apply calm_get_ec2_instances|]. intros; apply calm_ret.
Qed.

Lemma calm_get_instance_details self cluster_name instance_id :
  calm (get_instance_details w self cluster_name instance_id).
Proof.
  unfold get_instance_details.
  apply calm_try_except; [|intros; apply calm_throw].
  apply calm_get_instance_details_body.
Qed.
End Calm.

(** ** Bringing up the controller *)

Lemma quiet_no_launch evs :
  forallb quiet evs = true -> existsb is_launch evs = false.
Proof.
  induction evs as [|ev evs IH]; [reflexivity|]. simpl.
  intros Hq. apply andb_true_iff in Hq as [Hev Hevs].
  rewrite (IH Hevs). destruct ev; simpl in *; congruence.
Qed.

Lemma launch_in evs :
  existsb is_launch evs = true <-> exists cmd, In (Subprocess cmd) evs.
Proof.
  split.
  - intros Hl. apply existsb_exists in Hl as (ev & Hin & Hev).
    destruct ev as [| | |cmd]; try discriminate. eauto.
  - intros (cmd & Hin). apply existsb_exists. eauto.
Qed.

Lemma events_of_trace {A} (m : M A) (st : state) (evs : list event) :
  trace (snd (m st)) = trace st ++ evs -> events_of m st = evs.
Proof. intros E. unfold events_of. rewrite E. apply drop_app_length. Qed.

(** [ClusterConfig()] leaves an existing file alone and creates a missing
    one. *)
Lemma ClusterConfig_init_run st :
  exists evs,
    ClusterConfig_init st
    = (Return tt,
       {| config_file :=
            Some (default {[ CURRENT_CLUSTER := JNull ]} (config_file st));
          trace := trace st ++ evs |}) /\
    existsb is_launch evs = false /\
    forall config,
      In (WriteConfig config) evs ->
      config_file st = None /\ config = {[ CURRENT_CLUSTER := JNull ]}.
Proof.
  unfold ClusterConfig_init, _ensure_config_exists, _save_config.
  destruct st as [[config|] tr]; simpl.
  - exists []. rewrite app_nil_r. split; [reflexivity|].
    split; [reflexivity|]. intros config' [].
  - exists [WriteConfig {[ CURRENT_CLUSTER := JNull ]}].
    split; [reflexivity|]. split; [reflexivity|].
    intros config' [E|[]]. injection E as <-. auto.
Qed.

Section Init.
Context `{DatetimeLib} (w : World).

Lemma initialize_split st :
  _initialize_aws_clients w st
  = (ecs ← connect w; ClusterConfig_init;; mret ecs) st.
Proof.
  unfold _initialize_aws_clients, connect.
  unfold mbind, M_bind, bind, mret, M_ret, ret.
  repeat match goal with
         | |- context [match ?m st with _ => _ end] =>
             destruct (m st) as [[?|?] ?]
         | |- context [match ?m ?s with _ => _ end] =>
             destruct (m s) as [[?|?] ?]
         end; reflexivity.
Qed.

(** The controller either comes up, after calls into boto3 and
    [ClusterConfig()], or fails with an ECSCommandError after calls into
    boto3 alone. *)
Lemma ECSController_init_run st :
  exists evs,
    forallb quiet evs = true /\
    ((exists ecs,
        ECSController_init w st
        = (Return ecs, snd (ClusterConfig_init (log evs st)))) \/
     (exists text,
        ECSController_init w st
        = (Raise (Exception_ ECSCommandError text), log evs st))).
Proof.
  destruct (calm_connect w st) as (evs & Hs & Hq & Hx).
  exists evs. split; [exact Hq|].
  unfold ECSController_init, try_except. rewrite initialize_split.
  unfold mbind, M_bind, bind.
  destruct (connect w st) as [[ecs|[cls t|code]] st1]; simpl in Hs, Hx;
    subst st1.
  - left. exists ecs.
    destruct (ClusterConfig_init_run (log evs st)) as (evs' & -> & _).
    reflexivity.
  - right. eexists. reflexivity.
  - exfalso. apply (Hx code). reflexivity.
Qed.
End Init.

(** ** The [exec] command *)

Lemma get_current_cluster_run st (config : gmap string json) :
  config_file st = Some config ->
  get_current_cluster st
  = (Return (match config !! CURRENT_CLUSTER with
             | Some (JStr s) => Some s
             | _ => None
             end), st).
Proof.
  intros Hfile. unfold get_current_cluster, _load_config. unfold_M.
  rewrite Hfile. reflexivity.
Qed.

Lemma truthy_some (o : option string) :
  truthy o = true -> exists s, o = Some s /\ s <> EmptyString.
Proof.
  destruct o as [s|]; [|discriminate]. simpl. intros Hs.
  exists s. split; [reflexivity|].
  apply String.eqb_neq, negb_true_iff, Hs.
Qed.

Section Exec.
Context `{DatetimeLib} (w : World).

Lemma get_instance_details_cases self cluster_name instance_id st :
  get_instance_details w self cluster_name instance_id st
  = match get_ec2_instances w self cluster_name st with
    | (Return instances, st') =>
        (Return (find (fun i => String.eqb (InstanceInfo.InstanceId i)
                                  instance_id) instances), st')
    | (Raise (Exception_ _ text), st') =>
        (Raise (Exception_ ECSCommandError
                  ("Failed to get instance details: " +:+ text)), st')
    | (Raise (SystemExit code), st') => (Raise (SystemExit code), st')
    end.
Proof.
  unfold get_instance_details. unfold_M.
  destruct (get_ec2_instances w self cluster_name st) as [[l|[cls t|code]] st'];
    reflexivity.
Qed.

Lemma check_ssm_status_run self instance_id st :
  check_ssm_status w self instance_id st
  = (Return
       match describe_instance_information w (ssm_client self) instance_id
       with
       | inr l => Nat.ltb 0 (length l)
       | inl _ => false
       end,
     log [Sdk (DescribeInstanceInformation (ssm_client self) instance_id)] st).
Proof.
  unfold check_ssm_status. unfold_M.
  destruct (describe_instance_information w (ssm_client self) instance_id);
    reflexivity.
Qed.

Lemma exec_instance_outcome instance_id st :
  exists evs,
    trace (snd (exec_instance w instance_id st)) = trace st ++ evs /\
    ((exec_preconditions w instance_id st /\
      existsb is_launch evs = true /\
      fst (exec_instance w instance_id st) = Return tt) \/
     (~ exec_preconditions w instance_id st /\
      existsb is_launch evs = false /\
      fst (exec_instance w instance_id st) = Raise (SystemExit 1))).
Proof.
  destruct (ECSController_init_run w st)
    as (evs0 & Hq0 & [(ecs & Hinit) | (text & Hinit)]).
  2: {
    assert (Hr : exec_instance w instance_id st
                 = (Raise (SystemExit 1),
                    log [Echo true ("Error: " +:+ text)] (log evs0 st))).
    { unfold exec_instance, try_except_ecs.
      erewrite bind_raise by exact Hinit. reflexivity. }
    exists (evs0 ++ [Echo true ("Error: " +:+ text)]). rewrite Hr. simpl.
    split; [rewrite app_assoc; reflexivity|]. right.
    split; [|split; [|reflexivity]].
    - intros (ecs & st1 & ? & ? & ? & Hi & _). congruence.
    - rewrite existsb_app, (quiet_no_launch _ Hq0). reflexivity. }
  apply quiet_no_launch in Hq0.
  destruct (ClusterConfig_init_run (log evs0 st)) as (evs1 & Hens & Hl1 & _).
  rewrite Hens in Hinit. simpl in Hinit.
  match type of Hinit with _ = (_, ?s) => set (st1 := s) in * end.
  pose proof (get_current_cluster_run st1 _ eq_refl) as Hcc.
  match type of Hcc with _ = (Return ?o, _) => set (cc := o) in * end.
  destruct (truthy cc) eqn:Htruthy.
  2: {
    assert (Hr : exec_instance w instance_id st
                 = (Raise (SystemExit 1),
                    log [Echo true NO_CLUSTER_SELECTED] st1)).
    { unfold exec_instance, try_except_ecs.
      erewrite bind_return by exact Hinit.
      erewrite bind_return by exact Hcc.
      rewrite Htruthy. reflexivity. }
    exists (evs0 ++ evs1 ++ [Echo true NO_CLUSTER_SELECTED]).
    rewrite Hr. simpl.
    split; [rewrite <- !app_assoc; reflexivity|]. right.
    split; [|split; [|reflexivity]].
    - intros (ecs' & st1' & cluster & ? & ? & Hi & Hc & Hne & _).
      rewrite Hinit in Hi. injection Hi as <- <-.
      rewrite Hcc in Hc. simpl in Hc. injection Hc as Hc.
      rewrite Hc in Htruthy. simpl in Htruthy.
      apply negb_false_iff, String.eqb_eq in Htruthy. contradiction.
    - rewrite !existsb_app, Hq0, Hl1. reflexivity. }
  destruct (truthy_some _ Htruthy) as (cluster & Hcluster & Hne).
  destruct (calm_get_instance_details w ecs cluster instance_id st1)
    as (evs2 & Hs2 & Hq2 & Hx2).
  apply quiet_no_launch in Hq2.
  pose proof (get_instance_details_cases ecs cluster instance_id st1) as Hcases.
  destruct (get_instance_details w ecs cluster instance_id st1)
    as [[instance|e] st2] eqn:Hdet; simpl in Hs2, Hx2; subst st2.
  2: {
    destruct (wrapped_raises _ _ _ _ _
                (calm_get_instance_details_body w ecs cluster instance_id)
                Hdet) as (text & ->).
    assert (Hr : exec_instance w instance_id st
                 = (Raise (SystemExit 1),
                    log [Echo true ("Error: " +:+ text)] (log evs2 st1))).
    { unfold exec_instance, try_except_ecs.
      erewrite bind_return by exact Hinit.
      erewrite bind_return by exact Hcc.
      rewrite Htruthy, Hcluster. simpl default.
      erewrite bind_return by reflexivity.
      erewrite bind_raise by exact Hdet. reflexivity. }
    exists (evs0 ++ evs1 ++ evs2 ++ [Echo true ("Error: " +:+ text)]).
    rewrite Hr. simpl.
    split; [rewrite <- !app_assoc; reflexivity|]. right.
    split; [|split; [|reflexivity]].
    - intros (ecs' & st1' & cluster' & l & i & Hi & Hc & _ & Hl & _).
      rewrite Hinit in Hi. injection Hi as <- <-.
      rewrite Hcc in Hc. simpl in Hc. rewrite Hcluster in Hc.
      injection Hc as <-.
      destruct (get_ec2_instances w ecs cluster st1) as [[l'|e'] s'];
        simpl in Hl; [discriminate Hcases | discriminate Hl].
    - rewrite !existsb_app, Hq0, Hl1, Hq2. reflexivity. }
  destruct instance as [instance|].
  2: {
    assert (Hr : exec_instance w instance_id st
                 = (Raise (SystemExit 1),
                    log [Echo true ("Error: Instance '" +:+ instance_id
                                      +:+ "' not found in cluster '"
                                      +:+ cluster +:+ "'")]
                      (log evs2 st1))).
    { unfold exec_instance, try_except_ecs.
      erewrite bind_return by exact Hinit.
      erewrite bind_return by exact Hcc.
      rewrite Htruthy, Hcluster. simpl default.
      erewrite bind_return by reflexivity.
      erewrite bind_return by exact Hdet. reflexivity. }
    eexists (evs0 ++ evs1 ++ evs2 ++ [_]).
    rewrite Hr. simpl.
    split; [rewrite <- !app_assoc; reflexivity|]. right.
    split; [|split; [|reflexivity]].
    - intros (ecs' & st1' & cluster' & l & i & Hi & Hc & _ & Hl & Hin & Hid & _).
      rewrite Hinit in Hi. injection Hi as <- <-.
      rewrite Hcc in Hc. simpl in Hc. rewrite Hcluster in Hc.
      injection Hc as <-.
      destruct (get_ec2_instances w ecs cluster st1) as [[l'|e'] s'];
        simpl in Hl; [|discriminate Hl].
      injection Hl as ->. injection Hcases as Hfind _.
      symmetry in Hfind.
      apply (find_none _ _ Hfind) in Hin.
      rewrite Hid, String.eqb_refl in Hin. discriminate.
    - rewrite !existsb_app, Hq0, Hl1, Hq2. reflexivity. }
  pose proof (check_ssm_status_run ecs instance_id (log evs2 st1)) as Hssm.
  match type of Hssm with _ = (Return ?b, _) => set (ssm_ok := b) in * end.
  assert (Hssm1 : fst (check_ssm_status w ecs instance_id st1)
                  = Return ssm_ok).
  { rewrite check_ssm_status_run. reflexivity. }
  destruct ssm_ok eqn:Hok.
  2: {
    assert (Hr : exec_instance w instance_id st
                 = (Raise (SystemExit 1),
                    log [Echo true ("Error: SSM is not available on instance '"
                                      +:+ instance_id +:+ "'")]
                      (log [Sdk (DescribeInstanceInformation (ssm_client ecs)
                                   instance_id)] (log evs2 st1)))).
    { unfold exec_instance, try_except_ecs.
      erewrite bind_return by exact Hinit.
      erewrite bind_return by exact Hcc.
      rewrite Htruthy, Hcluster. simpl default.
      erewrite bind_return by reflexivity.
      erewrite bind_return by exact Hdet.
      erewrite bind_return by reflexivity.
      erewrite bind_return by exact Hssm. reflexivity. }
    eexists (evs0 ++ evs1 ++ evs2 ++ [_; _]).
    rewrite Hr. simpl.
    split; [rewrite <- !app_assoc; reflexivity|]. right.
    split; [|split; [|reflexivity]].
    - intros (ecs' & st1' & ? & ? & ? & Hi & _ & _ & _ & _ & _ & Hs).
      rewrite Hinit in Hi. injection Hi as <- <-.
      rewrite Hssm1 in Hs. discriminate.
    - rewrite !existsb_app, Hq0, Hl1, Hq2. reflexivity. }
  assert (Hr : exec_instance w instance_id st
               = (Return tt,
                  log [Subprocess (ssm_command ecs instance_id)]
                    (log [Echo false ("Starting session with instance '"
                                        +:+ instance_id +:+ "'...")]
                       (log [Sdk (DescribeInstanceInformation (ssm_client ecs)
                                    instance_id)] (log evs2 st1))))).
  { unfold exec_instance, try_except_ecs.
    erewrite bind_return by exact Hinit.
    erewrite bind_return by exact Hcc.
    rewrite Htruthy, Hcluster. simpl default.
    erewrite bind_return by reflexivity.
    erewrite bind_return by exact Hdet.
    erewrite bind_return by reflexivity.
    erewrite bind_return by exact Hssm. reflexivity. }
  eexists (evs0 ++ evs1 ++ evs2 ++ [_; _; _]).
  rewrite Hr. simpl.
  split; [rewrite <- !app_assoc; reflexivity|]. left.
  split; [|split; [|reflexivity]].
  - destruct (get_ec2_instances w ecs cluster st1) as [[l|[cls t|code]] s']
      eqn:Hec2; try discriminate Hcases.
    injection Hcases as Hfind _. symmetry in Hfind.
    apply find_some in Hfind as [Hin Hid]. apply String.eqb_eq in Hid.
    exists ecs, st1, cluster, l, instance.
    rewrite Hcc. simpl. rewrite Hcluster.
    repeat split; try solve [assumption | reflexivity].
    rewrite Hec2. reflexivity.
  - rewrite !existsb_app. simpl. rewrite !orb_true_r. reflexivity.
Qed.
End Exec.

Section ExecCommand.
Context `{DatetimeLib} (w : World).

(** C5: [exec] calls [subprocess.run] exactly when its preconditions hold
    (the controller comes up, a cluster is selected, [get_ec2_instances]
    returns a record with the given id for it, [check_ssm_status] answers
    [True]); when they do not, it exits with status 1 and launches
    nothing. *)
Theorem exec_launches_only_when_ready (instance_id : string) (st : state) :
  ((exists cmd,
      In (Subprocess cmd) (events_of (exec_instance w instance_id) st)) <->
   exec_preconditions w instance_id st) /\
  (~ exec_preconditions w instance_id st ->
   fst (exec_instance w instance_id st) = Raise (SystemExit 1) /\
   forall cmd,
     ~ In (Subprocess cmd) (events_of (exec_instance w instance_id) st)).
Proof.
  destruct (exec_instance_outcome w instance_id st)
    as (evs & Htrace & [(Hpre & Hlaunch & Hres) | (Hpre & Hlaunch & Hres)]);
    rewrite (events_of_trace _ _ _ Htrace).
  - split; [|contradiction].
    split; [intros _; exact Hpre | intros _; apply launch_in, Hlaunch].
  - split.
    + split; [|contradiction]. intros Hin. apply launch_in in Hin. congruence.
    + intros _. split; [exact Hres|]. intros cmd Hin.
      assert (Hl : existsb is_launch evs = true) by (apply launch_in; eauto).
      congruence.
Qed.
End ExecCommand.

(** In the sample account with [prod] selected, [exec i-0aaa] opens the
    session; [exec i-0bbb], whose SSM query is refused, does not. *)
Example exec_instance_sample :
  exec_instance (Sample.world None (Some "dev")) "i-0aaa"
    (Sample.selected "prod")
  = (Return tt,
     {| config_file := Some {[ CURRENT_CLUSTER := JStr "prod" ]};
        trace :=
          Sdk (NewSession Sample.session) :: client_calls Sample.session
          ++ [ Sdk (ListContainerInstances (ecs_client Sample.controller)
                      "prod");
               Sdk (DescribeContainerInstances (ecs_client Sample.controller)
                      "prod" [Sample.CI_1; Sample.CI_2]);
               Sdk (DescribeInstances (ec2_client Sample.controller)
                      ["i-0aaa"]);
               Sdk (DescribeInstances (ec2_client Sample.controller)
                      ["i-0bbb"]);
               Sdk (DescribeInstanceInformation
                      (ssm_client Sample.controller) "i-0aaa");
               Echo false "Starting session with instance 'i-0aaa'...";
               Subprocess ["aws"; "ssm"; "start-session"; "--target";
                           "i-0aaa"; "--profile"; "dev"; "--region";
                           "ap-southeast-1"] ] |}).
Proof. vm_compute. reflexivity. Qed.

Example exec_instance_refused_sample :
  fst (exec_instance (Sample.world None (Some "dev")) "i-0bbb"
         (Sample.selected "prod"))
  = Raise (SystemExit 1).
Proof. vm_compute. reflexivity. Qed.

Lemma exec_launches_only_when_ready_witness :
  let w := Sample.world None (Some "dev") in
  ~ exec_preconditions w "i-0aaa" Sample.fresh /\
  fst (exec_instance w "i-0aaa" Sample.fresh) = Raise (SystemExit 1).
Proof.
  intros w.
  destruct (exec_launches_only_when_ready w "i-0aaa" Sample.fresh)
    as [Hiff Hnot].
  assert (Hpre : ~ exec_preconditions w "i-0aaa" Sample.fresh).
  { intros Hpre. apply Hiff in Hpre as (cmd & Hin).
    vm_compute in Hin.
    repeat (destruct Hin as [Hin|Hin]; [discriminate|]). exact Hin. }
  split; [exact Hpre | apply Hnot, Hpre].
Defined.

(** ** The [use-cluster] command *)

Lemma quiet_no_write evs config :
  forallb quiet evs = true -> ~ In (WriteConfig config) evs.
Proof.
  intros Hq Hin. rewrite forallb_forall in Hq.
  specialize (Hq _ Hin). discriminate.
Qed.

Lemma for_each_echo (f : string -> string) (l : list string) st :
  for_each_ (fun x => click_echo (f x) false) l st
  = (Return tt, log (map (fun x => Echo false (f x)) l) st).
Proof.
  revert st. induction l as [|x l IH]; intros st; simpl.
  - rewrite log_nil. reflexivity.
  - erewrite bind_return by reflexivity. rewrite IH, log_log. reflexivity.
Qed.

Lemma persisted_default (f : option (gmap string json)) :
  persisted (Some (default {[ CURRENT_CLUSTER := JNull ]} f)) = persisted f.
Proof.
  destruct f as [config|]; [reflexivity|]. simpl.
  rewrite lookup_singleton_eq. reflexivity.
Qed.

(** The branch of [use-cluster] for a name that is not in the list. *)
Lemma not_found_exit (cluster_name : string) (names : list string) st :
  (click_echo ("Error: Cluster '" +:+ cluster_name
                 +:+ "' not found. Available clusters:") true;;
   for_each_ (fun cluster => click_echo ("  - " +:+ cluster) false) names;;
   (sys_exit 1 : M unit)) st
  = (Raise (SystemExit 1),
     log (map (fun cluster => Echo false ("  - " +:+ cluster)) names)
       (log [Echo true ("Error: Cluster '" +:+ cluster_name
                          +:+ "' not found. Available clusters:")] st)).
Proof.
  erewrite bind_return by reflexivity.
  erewrite bind_return by apply for_each_echo. reflexivity.
Qed.

Section UseCluster.
Context `{DatetimeLib} (w : World).

Lemma get_clusters_run self st :
  get_clusters w self st
  = (match list_clusters w (ecs_client self) with
     | inl text =>
         Raise (Exception_ ECSCommandError
                  ("Failed to get clusters: " +:+ text))
     | inr arns => Return (map split_last arns)
     end, log [Sdk (ListClusters (ecs_client self))] st).
Proof.
  unfold get_clusters. unfold_M.
  destruct (list_clusters w (ecs_client self)); reflexivity.
Qed.

Lemma use_cluster_outcome cluster_name st :
  exists evs,
    trace (snd (use_cluster w cluster_name st)) = trace st ++ evs /\
    (forall config,
       In (WriteConfig config) evs ->
       (config_file st = None /\ config = {[ CURRENT_CLUSTER := JNull ]}) \/
       (config !! CURRENT_CLUSTER = Some (JStr cluster_name) /\
        exists ecs st1 names st2 before after,
          ECSController_init w st = (Return ecs, st1) /\
          get_clusters w ecs st1 = (Return names, st2) /\
          str_in cluster_name names = true /\
          evs = before ++ Sdk (ListClusters (ecs_client ecs))
                       :: WriteConfig config :: after)) /\
    (forall ecs st1 names st2,
       ECSController_init w st = (Return ecs, st1) ->
       get_clusters w ecs st1 = (Return names, st2) ->
       str_in cluster_name names = false ->
       fst (use_cluster w cluster_name st) = Raise (SystemExit 1) /\
       persisted (config_file (snd (use_cluster w cluster_name st)))
       = persisted (config_file st) /\
       forall config,
         In (WriteConfig config) evs ->
         config_file st = None /\ config = {[ CURRENT_CLUSTER := JNull ]}).
Proof.
  destruct (ECSController_init_run w st)
    as (evs0 & Hq0 & [(ecs & Hinit) | (text & Hinit)]).
  2: {
    assert (Hr : use_cluster w cluster_name st
                 = (Raise (SystemExit 1),
                    log [Echo true ("Error: " +:+ text)] (log evs0 st))).
    { unfold use_cluster, try_except_ecs.
      erewrite bind_raise by exact Hinit. reflexivity. }
    exists (evs0 ++ [Echo true ("Error: " +:+ text)]). rewrite Hr. simpl.
    split; [rewrite app_assoc; reflexivity|]. split.
    - intros config Hin. apply in_app_or in Hin as [Hin|[Hin|[]]];
        [destruct (quiet_no_write _ _ Hq0 Hin) | discriminate].
    - intros ecs st1 names st2 Hi. congruence. }
  destruct (ClusterConfig_init_run (log evs0 st)) as (evs1 & Hens & _ & Hw1).
  rewrite Hens in Hinit. simpl in Hinit, Hw1.
  match type of Hinit with _ = (_, ?s) => set (st1 := s) in * end.
  pose proof (get_clusters_run ecs st1) as Hget.
  destruct (list_clusters w (ecs_client ecs)) as [text|arns].
  { assert (Hr : use_cluster w cluster_name st
                 = (Raise (SystemExit 1),
                    log [Echo true ("Error: Failed to get clusters: "
                                      +:+ text)]
                      (log [Sdk (ListClusters (ecs_client ecs))] st1))).
    { unfold use_cluster, try_except_ecs.
      erewrite bind_return by exact Hinit.
      erewrite bind_raise by exact Hget. reflexivity. }
    eexists (evs0 ++ evs1 ++ [_; _]). rewrite Hr. simpl.
    split; [rewrite <- !app_assoc; reflexivity|]. split.
    - intros config Hin. apply in_app_or in Hin as [Hin|Hin];
        [destruct (quiet_no_write _ _ Hq0 Hin)|].
      apply in_app_or in Hin as [Hin|Hin]; [left; exact (Hw1 _ Hin)|].
      destruct Hin as [Hin|[Hin|[]]]; discriminate.
    - intros ecs' st1' names st2 Hi Hg.
      rewrite Hinit in Hi. injection Hi as <- <-. rewrite Hget in Hg. discriminate. }
  set (names := map split_last arns) in *.
  destruct (str_in cluster_name names) eqn:Hfound.
  - assert (Hr : use_cluster w cluster_name st
                 = (Return tt,
                    log [Echo false ("Switched to cluster '" +:+ cluster_name
                                       +:+ "'")]
                      {| config_file :=
                           Some (<[ CURRENT_CLUSTER := JStr cluster_name ]>
                                   (default {[ CURRENT_CLUSTER := JNull ]}
                                      (config_file st)));
                         trace :=
                           trace (log [Sdk (ListClusters (ecs_client ecs))]
                                    st1)
                           ++ [WriteConfig
                                 (<[ CURRENT_CLUSTER := JStr cluster_name ]>
                                    (default {[ CURRENT_CLUSTER := JNull ]}
                                       (config_file st)))] |})).
    { unfold use_cluster, try_except_ecs.
      erewrite bind_return by exact Hinit.
      erewrite bind_return by exact Hget.
      rewrite Hfound. reflexivity. }
    eexists (evs0 ++ evs1 ++ [_; _; _]). rewrite Hr. simpl.
    split; [rewrite <- !app_assoc; reflexivity|]. split.
    + intros config Hin. apply in_app_or in Hin as [Hin|Hin];
        [destruct (quiet_no_write _ _ Hq0 Hin)|].
      apply in_app_or in Hin as [Hin|Hin]; [left; exact (Hw1 _ Hin)|].
      destruct Hin as [Hin|[Hin|[Hin|[]]]]; try discriminate.
      injection Hin as <-. right. split; [apply lookup_insert_eq|].
      exists ecs, st1, names, (log [Sdk (ListClusters (ecs_client ecs))] st1),
        (evs0 ++ evs1), [Echo false ("Switched to cluster '" +:+ cluster_name
                                       +:+ "'")].
      split; [exact Hinit|]. split; [exact Hget|]. split; [exact Hfound|].
      rewrite <- app_assoc. reflexivity.
    + intros ecs' st1' names' st2 Hi Hg Hnot.
      rewrite Hinit in Hi. injection Hi as <- <-. rewrite Hget in Hg. injection Hg as <- _.
      congruence.
  - assert (Hr : use_cluster w cluster_name st
                 = (Raise (SystemExit 1),
                    log (map (fun cluster => Echo false ("  - " +:+ cluster))
                           names)
                      (log [Echo true ("Error: Cluster '" +:+ cluster_name
                                         +:+ "' not found. Available clusters:")]
                         (log [Sdk (ListClusters (ecs_client ecs))] st1)))).
    { unfold use_cluster, try_except_ecs.
      erewrite bind_return by exact Hinit.
      erewrite bind_return by exact Hget.
      rewrite Hfound. simpl negb. cbv iota.
      erewrite bind_raise by apply not_found_exit. reflexivity. }
    eexists (evs0 ++ evs1 ++ [_; _] ++ map _ names). rewrite Hr. simpl.
    split; [rewrite <- !app_assoc; reflexivity|].
    assert (Hwrites : forall config,
              In (WriteConfig config)
                (evs0 ++ evs1
                 ++ Sdk (ListClusters (ecs_client ecs))
                 :: Echo true ("Error: Cluster '" +:+ cluster_name
                                 +:+ "' not found. Available clusters:")
                 :: map (fun cluster => Echo false ("  - " +:+ cluster))
                      names) ->
              config_file st = None /\
              config = {[ CURRENT_CLUSTER := JNull ]}).
    { intros config Hin. apply in_app_or in Hin as [Hin|Hin];
        [destruct (quiet_no_write _ _ Hq0 Hin)|].
      apply in_app_or in Hin as [Hin|Hin]; [exact (Hw1 _ Hin)|].
      destruct Hin as [Hin|[Hin|Hin]]; try discriminate.
      apply in_map_iff in Hin as (x & Hx & _). discriminate. }
    split.
    + intros config Hin. left. exact (Hwrites config Hin).
    + intros ecs' st1' names' st2 _ _ _.
      split; [reflexivity|]. split; [apply persisted_default | exact Hwrites].
Qed.

End UseCluster.


(** With [prod] selected, [use-cluster staging] switches and
    [use-cluster qa] does not. *)
Example use_cluster_sample :
  let w := Sample.world None (Some "dev") in
  persisted (config_file (snd (use_cluster w "staging"
                                 (Sample.selected "prod"))))
  = Some "staging" /\
  persisted (config_file (snd (use_cluster w "qa" (Sample.selected "prod"))))
  = Some "prod".
Proof. split; vm_compute; reflexivity. Qed.


(** * Further properties *)

(** ** The configuration store *)

(** X1: on an existing file, [set_current_cluster] succeeds and a
    [get_current_cluster] that follows returns the name just stored. *)
Theorem set_then_get (cluster_name : string) (st : state)
    (config : gmap string json) :
  config_file st = Some config ->
  exists st',
    set_current_cluster cluster_name st = (Return tt, st') /\
    get_current_cluster st' = (Return (Some cluster_name), st').
Proof.
  intros Hfile. eexists. split.
  - unfold set_current_cluster, _load_config, _save_config. unfold_M.
    rewrite Hfile. reflexivity.
  - erewrite get_current_cluster_run by reflexivity.
    rewrite lookup_insert_eq. reflexivity.
Qed.

Lemma set_then_get_witness :
  let st := Sample.selected "prod" in
  config_file st = Some {[ CURRENT_CLUSTER := JStr "prod" ]} /\
  exists st',
    set_current_cluster "staging" st = (Return tt, st') /\
    get_current_cluster st' = (Return (Some "staging"), st').
Proof.
  split; [reflexivity|].
  apply (set_then_get "staging" (Sample.selected "prod")
           {[ CURRENT_CLUSTER := JStr "prod" ]}).
  reflexivity.
Defined.

(** X2: the last [set_current_cluster] wins: storing [a] and then [b]
    leaves the file that storing [b] alone leaves. *)
Theorem set_twice_last_wins (a b : string) (st : state)
    (config : gmap string json) :
  config_file st = Some config ->
  fst ((set_current_cluster a;; set_current_cluster b) st) = Return tt /\
  config_file (snd ((set_current_cluster a;; set_current_cluster b) st))
  = config_file (snd (set_current_cluster b st)).
Proof.
  intros Hfile.
  unfold set_current_cluster, _load_config, _save_config. unfold_M.
  rewrite Hfile. simpl. rewrite insert_insert_eq. split; reflexivity.
Qed.

Lemma set_twice_last_wins_witness :
  let st := Sample.selected "prod" in
  config_file st = Some {[ CURRENT_CLUSTER := JStr "prod" ]} /\
  fst ((set_current_cluster "qa";; set_current_cluster "staging") st)
  = Return tt /\
  config_file (snd ((set_current_cluster "qa";;
                     set_current_cluster "staging") st))
  = config_file (snd (set_current_cluster "staging" st)).
Proof.
  split; [reflexivity|].
  apply (set_twice_last_wins "qa" "staging" (Sample.selected "prod")
           {[ CURRENT_CLUSTER := JStr "prod" ]}).
  reflexivity.
Defined.

(** ** Authentication and construction of the controller *)

Section Authentication.
Context `{DatetimeLib} (w : World).

Lemma reports_sdk_new (c : call) (r : option string) :
  raised w c = r -> reports w (fun t => t) (sdk_new c r).
Proof.
  intros Hr. unfold sdk_new. apply reports_sdk.
  rewrite Hr. destruct r; reflexivity.
Qed.

Lemma reports_new_session s : reports w (fun t => t) (new_session w s).
Proof.
  unfold new_session.
  apply reports_bind; [apply reports_sdk_new; reflexivity|].
  intros _. apply reports_ret.
Qed.

Lemma reports_new_client s service :
  reports w (fun t => t) (new_client w s service).
Proof.
  unfold new_client.
  apply reports_bind; [apply reports_sdk_new; reflexivity|].
  intros _. apply reports_ret.
Qed.

(** X4: whichever of its boto3 calls raises (making the base session, making
    the STS client, [assume_role], making the final session),
    [authenticate] raises a plain [Exception] whose message is
    'Failed to authenticate with AWS: ' followed by the text of that
    exception. *)
Theorem authenticate_wraps (self : AWSClient) (role_arn session_name : string)
    (st : state) (c : call) (text : string) :
  raised w c = Some text ->
  In (Sdk c) (events_of (authenticate w self role_arn session_name) st) ->
  fst (authenticate w self role_arn session_name st)
  = Raise (Exception_ PlainException
             ("Failed to authenticate with AWS: " +:+ text)).
Proof.
  intros Hraised. unfold authenticate.
  match goal with |- context [try_except ?b _] =>
    assert (Hb : reports w (fun t => t) b) end.
  { apply reports_bind.
    { destruct (truthy (profile_name self)); apply reports_new_session. }
    intros session. apply reports_bind; [apply reports_new_client|].
    intros sts. apply reports_bind; [apply reports_sdk; reflexivity|].
    intros creds. apply reports_new_session. }
  destruct (Hb st) as (evs & Hs & Hr).
  match goal with |- In _ (events_of ?m st) -> _ =>
    assert (Hev : events_of m st = evs) end.
  { apply events_of_log. unfold try_except, mthrow, M_throw, raise.
    match goal with |- snd (match ?b with _ => _ end) = _ =>
      destruct b as [[a|[cls t|code]] st1] end; exact Hs. }
  rewrite Hev. intros Hin. destruct (Hr c text Hin Hraised) as (cls & Hcls).
  unfold try_except, mthrow, M_throw, raise.
  match goal with |- fst (match ?b with _ => _ end) = _ =>
    destruct b as [[a|[cls' t|code]] st1] end; simpl in *; congruence.
Qed.

Lemma connect_shape st ecs st' :
  connect w st = (Return ecs, st') ->
  exists session, ecs = controller_on (AWSClient_init w None) session.
Proof.
  unfold connect, new_client, sdk_new, sdk. unfold_M.
  match goal with |- context [match ?m st with _ => _ end] =>
    destruct (m st) as [[session|e] st1] end; [|discriminate].
  destruct (session_client w session "ecs"); simpl; [discriminate|].
  destruct (session_client w session "ec2"); simpl; [discriminate|].
  destruct (session_client w session "ssm"); simpl; [discriminate|].
  intros E. injection E as <- _. exists session. reflexivity.
Qed.

(** X5: constructing the controller either returns a controller whose
    three clients (ecs, ec2, ssm) are made from one and the same session,
    with the configuration file in place, or raises an ECSCommandError
    whose message starts with 'Failed to initialize AWS clients: ', and in
    that case the configuration file has not been touched.  It raises
    nothing else. *)
Theorem ECSController_init_outcome (st : state) :
  (exists session st',
     ECSController_init w st
     = (Return (controller_on (AWSClient_init w None) session), st') /\
     config_file st'
     = Some (default {[ CURRENT_CLUSTER := JNull ]} (config_file st))) \/
  (exists text st',
     ECSController_init w st
     = (Raise (Exception_ ECSCommandError
                 ("Failed to initialize AWS clients: " +:+ text)), st') /\
     config_file st' = config_file st /\
     forall config,
       ~ In (WriteConfig config) (events_of (ECSController_init w) st)).
Proof.
  destruct (calm_connect w st) as (evs & Hs & Hq & Hx).
  assert (Hrun : ECSController_init w st
                 = match connect w st with
                   | (Return ecs, st1) =>
                       (Return ecs, snd (ClusterConfig_init st1))
                   | (Raise (Exception_ _ text), st1) =>
                       (Raise (Exception_ ECSCommandError
                                 ("Failed to initialize AWS clients: "
                                    +:+ text)), st1)
                   | (Raise (SystemExit code), st1) =>
                       (Raise (SystemExit code), st1)
                   end).
  { unfold ECSController_init, try_except. rewrite initialize_split.
    unfold mbind, M_bind, bind.
    destruct (connect w st) as [[ecs|[cls t|code]] st1]; try reflexivity.
    destruct (ClusterConfig_init_run st1) as (evs' & -> & _). reflexivity. }
  destruct (connect w st) as [[ecs|[cls t|code]] st1] eqn:Hconnect;
    simpl in Hs, Hx; subst st1.
  - left. destruct (connect_shape _ _ _ Hconnect) as (session & ->).
    exists session. eexists. split; [exact Hrun|].
    destruct (ClusterConfig_init_run (log evs st)) as (evs' & -> & _).
    reflexivity.
  - right. exists t, (log evs st). split; [exact Hrun|].
    split; [reflexivity|]. intros config.
    rewrite (events_of_log (ECSController_init w) st evs)
      by (rewrite Hrun; reflexivity).
    apply quiet_no_write, Hq.
  - exfalso. apply (Hx code). reflexivity.
Qed.
End Authentication.

(** In the account where STS refuses the role, the controller does not come
    up and the refusal is reported with both prefixes. *)
Example ECSController_init_refused_sample :
  let w := Refused.world in
  ECSController_init w Sample.fresh
  = (Raise (Exception_ ECSCommandError
              "Failed to initialize AWS clients: Failed to authenticate with AWS: AccessDenied"),
     log [ Sdk (NewSession (region_session "ap-southeast-1"));
           Sdk (NewClient (region_session "ap-southeast-1") "sts");
           Sdk (AssumeRole {| client_session :=
                                region_session "ap-southeast-1";
                              client_service := "sts" |}
                  Sample.ROLE "AssumeRoleSession") ] Sample.fresh).
Proof. reflexivity. Qed.

Lemma authenticate_wraps_witness :
  let self := {| profile_name := None; region := "ap-southeast-1" |} in
  let sts := {| client_session := region_session "ap-southeast-1";
                client_service := "sts" |} in
  let c := AssumeRole sts Sample.ROLE "AssumeRoleSession" in
  (raised Sample.denied c = Some "AccessDenied" /\
   In (Sdk c) (events_of (authenticate Sample.denied self Sample.ROLE
                            "AssumeRoleSession") Sample.fresh)) /\
  fst (authenticate Sample.denied self Sample.ROLE "AssumeRoleSession"
         Sample.fresh)
  = Raise (Exception_ PlainException
             "Failed to authenticate with AWS: AccessDenied").
Proof.
  intros self sts c.
  assert (Hin : In (Sdk c) (events_of (authenticate Sample.denied self
                                         Sample.ROLE "AssumeRoleSession")
                              Sample.fresh))
    by (right; right; left; reflexivity).
  split; [split; [reflexivity | exact Hin]|].
  apply (authenticate_wraps Sample.denied self Sample.ROLE "AssumeRoleSession"
           Sample.fresh c "AccessDenied"); [reflexivity | exact Hin].
Defined.

(** ** Failures in the middle of a query *)

Section FirstFailure.
Context `{DatetimeLib} (w : World).

Lemma instance_info_fails (self : ECSController) (ci : ContainerInstance)
    (text : string) (st : state) :
  instance_fails w self ci text ->
  exists cls,
    instance_info w self ci st
    = (Raise (Exception_ cls text),
       log [Sdk (DescribeInstances (ec2_client self) [ec2InstanceId ci])] st).
Proof.
  unfold instance_info. unfold_M.
  intros [Hd | (-> & [Hd | (r & rs & Hd & Hi)])]; rewrite Hd; simpl.
  - exists SdkError. reflexivity.
  - exists IndexError. reflexivity.
  - rewrite Hi. exists IndexError. reflexivity.
Qed.

Lemma for_each_instance_info_fails (self : ECSController)
    (before : list ContainerInstance) (ci : ContainerInstance)
    (after : list ContainerInstance) (text : string) :
  Forall (has_first_instance w self) before ->
  instance_fails w self ci text ->
  forall st,
  exists cls,
    for_each (instance_info w self) (before ++ ci :: after) st
    = (Raise (Exception_ cls text),
       log (map (fun ci => Sdk (DescribeInstances (ec2_client self)
                                  [ec2InstanceId ci])) (before ++ [ci])) st).
Proof.
  intros Hbefore Hfails. induction Hbefore as [|x before Hx _ IH]; intros st.
  - destruct (instance_info_fails self ci text st Hfails) as (cls & Hrun).
    exists cls. simpl. erewrite bind_raise by exact Hrun. reflexivity.
  - destruct (instance_info_run w self x st Hx) as (info & Hrun & _).
    destruct (IH (log [Sdk (DescribeInstances (ec2_client self)
                              [ec2InstanceId x])] st)) as (cls & Hrest).
    exists cls. simpl. erewrite bind_return by exact Hrun.
    erewrite bind_raise by exact Hrest. rewrite log_log. reflexivity.
Qed.

(** X6: [get_ec2_instances] stops at the first container instance whose
    EC2 lookup fails (an exception of boto3, an empty 'Reservations' list
    or an empty 'Instances' list): it raises ECSCommandError
    'Failed to get EC2 instances: ' followed by the text of the failure,
    the records built for the instances before are lost, and no
    [describe_instances] call is made for the instances after. *)
Theorem get_ec2_instances_first_failure (self : ECSController)
    (cluster_name : string) (arns : list string)
    (before : list ContainerInstance) (ci : ContainerInstance)
    (after : list ContainerInstance) (text : string) (st : state) :
  arns <> [] ->
  list_container_instances w (ecs_client self) cluster_name = inr arns ->
  describe_container_instances w (ecs_client self) cluster_name arns
  = inr (before ++ ci :: after) ->
  Forall (has_first_instance w self) before ->
  instance_fails w self ci text ->
  get_ec2_instances w self cluster_name st
  = (Raise (Exception_ ECSCommandError
              ("Failed to get EC2 instances: " +:+ text)),
     log (Sdk (ListContainerInstances (ecs_client self) cluster_name)
          :: Sdk (DescribeContainerInstances (ecs_client self) cluster_name
                    arns)
          :: map (fun ci => Sdk (DescribeInstances (ec2_client self)
                                   [ec2InstanceId ci])) (before ++ [ci])) st).
Proof.
  intros Hne Hlist Hdesc Hbefore Hfails.
  destruct (for_each_instance_info_fails self before ci after text Hbefore
              Hfails
              (log [Sdk (ListContainerInstances (ecs_client self)
                           cluster_name);
                    Sdk (DescribeContainerInstances (ecs_client self)
                           cluster_name arns)] st)) as (cls & Hrun).
  unfold get_ec2_instances. unfold_M. rewrite Hlist.
  destruct arns as [|arn arns]; [congruence|].
  rewrite Hdesc, log_log. simpl app. rewrite Hrun, log_log. reflexivity.
Qed.
End FirstFailure.

Lemma get_ec2_instances_first_failure_witness :
  let w := Stale.world in
  let self := Sample.controller in
  let arns := [Sample.CI_1; Sample.CI_2] in
  let first := {| ec2InstanceId := "i-0aaa"; status := "ACTIVE";
                  runningTasksCount := 2 |} in
  let gone := {| ec2InstanceId := "i-0ddd"; status := "INACTIVE";
                 runningTasksCount := 0 |} in
  let last := {| ec2InstanceId := "i-0bbb"; status := "DRAINING";
                 runningTasksCount := 0 |} in
  (arns <> [] /\
   list_container_instances w (ecs_client self) "prod" = inr arns /\
   describe_container_instances w (ecs_client self) "prod" arns
   = inr ([first] ++ gone :: [last]) /\
   Forall (has_first_instance w self) [first] /\
   instance_fails w self gone "list index out of range") /\
  get_ec2_instances w self "prod" Sample.fresh
  = (Raise (Exception_ ECSCommandError
              "Failed to get EC2 instances: list index out of range"),
     log [ Sdk (ListContainerInstances (ecs_client self) "prod");
           Sdk (DescribeContainerInstances (ecs_client self) "prod" arns);
           Sdk (DescribeInstances (ec2_client self) ["i-0aaa"]);
           Sdk (DescribeInstances (ec2_client self) ["i-0ddd"]) ]
       Sample.fresh).
Proof.
  intros w self arns first gone last.
  assert (Hfirst : Forall (has_first_instance w self) [first]).
  { repeat constructor. do 4 eexists. split; reflexivity. }
  assert (Hgone : instance_fails w self gone "list index out of range").
  { right. split; [reflexivity|]. left. reflexivity. }
  split.
  - split; [discriminate|]. repeat split; solve [reflexivity | assumption].
  - apply (get_ec2_instances_first_failure w self "prod" arns [first] gone
             [last] "list index out of range" Sample.fresh);
      solve [discriminate | reflexivity | assumption].
Defined.

(** ** Switching clusters *)

Lemma str_in_In (x : string) (l : list string) :
  str_in x l = true <-> In x l.
Proof.
  induction l as [|y l IH]; simpl; [split; [discriminate | tauto]|].
  rewrite orb_true_iff, IH, String.eqb_eq. split; intros [E|E]; auto.
Qed.

Lemma listed_name_no_slash (cluster_name : string) (arns : list string) :
  str_in cluster_name (map split_last arns) = true ->
  contains slash cluster_name = false.
Proof.
  intros Hin. apply str_in_In, in_map_iff in Hin as (arn & <- & _).
  apply split_last_no_slash.
Qed.

Section Switching.
Context `{DatetimeLib} (w : World).

(** X7: when the controller comes up and the given name is the last
    segment of one of the listed cluster ARNs, [use-cluster] returns
    normally: after the [list_clusters] call it writes the file once, with
    the name under 'current-cluster' and every other key as it was, and
    prints 'Switched to cluster ...'; the name is then the selected
    cluster. *)
Theorem use_cluster_switches (cluster_name : string) (st : state)
    (ecs : ECSController) (st1 : state) (arns : list string) :
  ECSController_init w st = (Return ecs, st1) ->
  list_clusters w (ecs_client ecs) = inr arns ->
  str_in cluster_name (map split_last arns) = true ->
  exists config config' : gmap string json,
    config_file st1 = Some config /\
    use_cluster w cluster_name st
    = (Return tt,
       {| config_file := Some config';
          trace := trace st1
                   ++ [ Sdk (ListClusters (ecs_client ecs));
                        WriteConfig config';
                        Echo false ("Switched to cluster '" +:+ cluster_name
                                      +:+ "'") ] |}) /\
    persisted (Some config') = Some cluster_name /\
    forall k, k <> CURRENT_CLUSTER -> config' !! k = config !! k.
Proof.
  intros Hinit Hlist Hfound.
  destruct (ECSController_init_run w st)
    as (evs0 & _ & [(ecs' & Hinit') | (text & Hinit')]);
    rewrite Hinit in Hinit'; [|discriminate].
  injection Hinit' as <- Hst1.
  destruct (ClusterConfig_init_run (log evs0 st)) as (evs1 & Hens & _).
  rewrite Hens in Hst1. simpl in Hst1. subst st1.
  match type of Hinit with _ = (_, ?s) =>
    pose proof (get_clusters_run w ecs s) as Hget end.
  rewrite Hlist in Hget.
  exists (default {[ CURRENT_CLUSTER := JNull ]} (config_file st)),
    (<[ CURRENT_CLUSTER := JStr cluster_name ]>
       (default {[ CURRENT_CLUSTER := JNull ]} (config_file st))).
  split; [reflexivity|]. split; [|split].
  - unfold use_cluster, try_except_ecs.
    erewrite bind_return by exact Hinit.
    erewrite bind_return by exact Hget.
    rewrite Hfound. simpl. unfold log. simpl.
    rewrite <- !app_assoc. reflexivity.
  - simpl. rewrite lookup_insert_eq. reflexivity.
  - intros k Hk. apply lookup_insert_ne. congruence.
Qed.

(** X8: a name that holds a ['/'], such as a full cluster ARN, is never
    accepted: when the controller comes up and the clusters are listed,
    [use-cluster] exits with status 1 and the selected cluster is as it
    was. *)
Theorem use_cluster_rejects_slash (cluster_name : string) (st : state)
    (ecs : ECSController) (st1 : state) (arns : list string) :
  contains slash cluster_name = true ->
  ECSController_init w st = (Return ecs, st1) ->
  list_clusters w (ecs_client ecs) = inr arns ->
  fst (use_cluster w cluster_name st) = Raise (SystemExit 1) /\
  persisted (config_file (snd (use_cluster w cluster_name st)))
  = persisted (config_file st).
Proof.
  intros Hslash Hinit Hlist.
  assert (Hnot : str_in cluster_name (map split_last arns) = false).
  { destruct (str_in cluster_name (map split_last arns)) eqn:E;
      [|reflexivity].
    apply listed_name_no_slash in E. congruence. }
  pose proof (get_clusters_run w ecs st1) as Hget. rewrite Hlist in Hget.
  destruct (use_cluster_outcome w cluster_name st) as (evs & _ & _ & Hmissing).
  destruct (Hmissing ecs st1 _ _ Hinit Hget Hnot) as (Hexit & Hsame & _).
  split; assumption.
Qed.
End Switching.

Lemma use_cluster_switches_witness :
  let w := Sample.world None (Some "dev") in
  let st := Sample.selected "prod" in
  let st1 := snd (ECSController_init w st) in
  (ECSController_init w st = (Return Sample.controller, st1) /\
   list_clusters w (ecs_client Sample.controller)
   = inr [Sample.PROD; Sample.STAGING] /\
   str_in "staging" (map split_last [Sample.PROD; Sample.STAGING]) = true) /\
  exists config config' : gmap string json,
    config_file st1 = Some config /\
    use_cluster w "staging" st
    = (Return tt,
       {| config_file := Some config';
          trace := trace st1
                   ++ [ Sdk (ListClusters (ecs_client Sample.controller));
                        WriteConfig config';
                        Echo false "Switched to cluster 'staging'" ] |}) /\
    persisted (Some config') = Some "staging" /\
    forall k, k <> CURRENT_CLUSTER -> config' !! k = config !! k.
Proof.
  intros w st st1. split; [repeat split; reflexivity|].
  apply (use_cluster_switches w "staging" st Sample.controller st1
           [Sample.PROD; Sample.STAGING]); reflexivity.
Defined.

Lemma use_cluster_rejects_slash_witness :
  let w := Sample.world None (Some "dev") in
  let st := Sample.selected "staging" in
  let st1 := snd (ECSController_init w st) in
  (contains slash Sample.PROD = true /\
   ECSController_init w st = (Return Sample.controller, st1) /\
   list_clusters w (ecs_client Sample.controller)
   = inr [Sample.PROD; Sample.STAGING]) /\
  fst (use_cluster w Sample.PROD st) = Raise (SystemExit 1) /\
  persisted (config_file (snd (use_cluster w Sample.PROD st)))
  = persisted (config_file st).
Proof.
  intros w st st1. split; [repeat split; reflexivity|].
  apply (use_cluster_rejects_slash w Sample.PROD st Sample.controller st1
           [Sample.PROD; Sample.STAGING]); reflexivity.
Defined.

(** ** The listing commands *)

Lemma add_rows_rows {A} (cells : A -> list string) (l : list A) table :
  rows (add_rows cells l table) = rows table ++ map cells l /\
  columns (add_rows cells l table) = columns table.
Proof.
  unfold add_rows. revert table.
  induction l as [|x l IH]; intros table; simpl.
  - rewrite app_nil_r. split; reflexivity.
  - destruct (IH (add_row table (cells x))) as [-> ->]. simpl.
    rewrite <- app_assoc. split; reflexivity.
Qed.

Lemma eq_current_persisted (cluster : string) (current : option string) :
  eq_current cluster current = true <-> current = Some cluster.
Proof.
  destruct current as [c|]; simpl; [|split; discriminate].
  rewrite String.eqb_eq. split; congruence.
Qed.

Lemma marked_rows (current : option string) (arns : list string) :
  Forall2 (fun arn row =>
             exists name,
               last_segment arn name /\
               ((row = [name; "*"] /\ current = Some name) \/
                (row = [name; ""] /\ current <> Some name)))
    arns
    (map (fun cluster =>
            [cluster; if eq_current cluster current then "*" else ""])
       (map split_last arns)).
Proof.
  induction arns as [|arn arns IH]; simpl; constructor; [|exact IH].
  exists (split_last arn). split; [apply split_last_segment|].
  destruct (eq_current (split_last arn) current) eqn:E.
  - left. split; [reflexivity|]. apply eq_current_persisted, E.
  - right. split; [reflexivity|]. intros Hp.
    apply eq_current_persisted in Hp. congruence.
Qed.

Section Listing.
Context `{DatetimeLib} (w : World).

Lemma init_config st ecs st1 :
  ECSController_init w st = (Return ecs, st1) ->
  config_file st1
  = Some (default {[ CURRENT_CLUSTER := JNull ]} (config_file st)).
Proof.
  intros Hinit.
  destruct (ECSController_init_run w st)
    as (evs0 & _ & [(ecs' & Hinit') | (text & Hinit')]);
    rewrite Hinit in Hinit'; [|discriminate].
  injection Hinit' as _ ->.
  destruct (ClusterConfig_init_run (log evs0 st)) as (evs1 & -> & _).
  reflexivity.
Qed.

Lemma current_after_init st ecs st1 evs :
  ECSController_init w st = (Return ecs, st1) ->
  get_current_cluster (log evs st1)
  = (Return (persisted (config_file st)), log evs st1).
Proof.
  intros Hinit. erewrite get_current_cluster_run
    by (simpl; apply (init_config _ _ _ Hinit)).
  rewrite <- (persisted_default (config_file st)). reflexivity.
Qed.

(** X9: when the controller comes up and the clusters are listed,
    [get-clusters] prints a table with the columns 'Cluster Name' and
    'Current' and one row per cluster ARN, in order, holding the last
    segment of the ARN and a star exactly when that name is the selected
    cluster; it makes no call but [list_clusters]. *)
Theorem get_clusters_table (st : state) (ecs : ECSController) (st1 : state)
    (arns : list string) :
  ECSController_init w st = (Return ecs, st1) ->
  list_clusters w (ecs_client ecs) = inr arns ->
  exists table,
    Cli.get_clusters w st
    = (Return table, log [Sdk (ListClusters (ecs_client ecs))] st1) /\
    columns table = ["Cluster Name"; "Current"] /\
    Forall2 (fun arn row =>
               exists name,
                 last_segment arn name /\
                 ((row = [name; "*"] /\
                   persisted (config_file st) = Some name) \/
                  (row = [name; ""] /\
                   persisted (config_file st) <> Some name)))
      arns (rows table).
Proof.
  intros Hinit Hlist.
  pose proof (get_clusters_run w ecs st1) as Hget. rewrite Hlist in Hget.
  pose proof (current_after_init st ecs st1
                [Sdk (ListClusters (ecs_client ecs))] Hinit) as Hcur.
  eexists. split; [|split].
  - unfold Cli.get_clusters, try_except_ecs.
    erewrite bind_return by exact Hinit.
    erewrite bind_return by exact Hget.
    erewrite bind_return by exact Hcur.
    reflexivity.
  - rewrite (proj2 (add_rows_rows _ _ _)). reflexivity.
  - rewrite (proj1 (add_rows_rows _ _ _)). apply marked_rows.
Qed.

(** X10: with no cluster selected (no file, no value or an empty name),
    [get ec2], [get containers] and [exec] print the hint to run
    [use-cluster] and exit with status 1 right after the controller has
    come up: no cluster is queried. *)
Theorem commands_need_selection (st : state) (ecs : ECSController)
    (st1 : state) :
  ECSController_init w st = (Return ecs, st1) ->
  truthy (persisted (config_file st)) = false ->
  Cli.get_ec2 w st
  = (Raise (SystemExit 1), log [Echo true NO_CLUSTER_SELECTED] st1) /\
  Cli.get_containers w st
  = (Raise (SystemExit 1), log [Echo true NO_CLUSTER_SELECTED] st1) /\
  forall instance_id,
    exec_instance w instance_id st
    = (Raise (SystemExit 1), log [Echo true NO_CLUSTER_SELECTED] st1).
Proof.
  intros Hinit Hnone.
  pose proof (current_after_init st ecs st1 [] Hinit) as Hcur.
  rewrite log_nil in Hcur.
  split; [|split].
  - unfold Cli.get_ec2, try_except_ecs.
    erewrite bind_return by exact Hinit.
    erewrite bind_return by exact Hcur.
    rewrite Hnone. reflexivity.
  - unfold Cli.get_containers, try_except_ecs.
    erewrite bind_return by exact Hinit.
    erewrite bind_return by exact Hcur.
    rewrite Hnone. reflexivity.
  - intros instance_id. unfold exec_instance, try_except_ecs.
    erewrite bind_return by exact Hinit.
    erewrite bind_return by exact Hcur.
    rewrite Hnone. reflexivity.
Qed.

(** X11: with a cluster selected, [get ec2] queries that cluster: when
    [get_ec2_instances] returns, it prints a table of five columns with one
    row per record, in order, the task count in decimal; when it raises
    ECSCommandError, it prints 'Error: ' followed by the message and exits
    with status 1. *)
Theorem get_ec2_table (st : state) (ecs : ECSController) (st1 : state)
    (cluster : string) :
  ECSController_init w st = (Return ecs, st1) ->
  persisted (config_file st) = Some cluster ->
  cluster <> EmptyString ->
  (forall instances st2,
     get_ec2_instances w ecs cluster st1 = (Return instances, st2) ->
     exists table,
       Cli.get_ec2 w st = (Return table, st2) /\
       columns table
       = ["Instance ID"; "Type"; "State"; "Status"; "Running Tasks"] /\
       rows table
       = map (fun i => [InstanceInfo.InstanceId i; InstanceInfo.InstanceType i;
                        InstanceInfo.State i; InstanceInfo.Status i;
                        str_int (InstanceInfo.RunningTasks i)]) instances) /\
  (forall text st2,
     get_ec2_instances w ecs cluster st1
     = (Raise (Exception_ ECSCommandError text), st2) ->
     Cli.get_ec2 w st
     = (Raise (SystemExit 1), log [Echo true ("Error: " +:+ text)] st2)).
Proof.
  intros Hinit Hsel Hne.
  pose proof (current_after_init st ecs st1 [] Hinit) as Hcur.
  rewrite log_nil, Hsel in Hcur.
  assert (Htruthy : truthy (Some cluster) = true).
  { simpl. apply negb_true_iff, String.eqb_neq, Hne. }
  split.
  - intros instances st2 Hrun. eexists. split; [|split].
    + unfold Cli.get_ec2, try_except_ecs.
      erewrite bind_return by exact Hinit.
      erewrite bind_return by exact Hcur.
      rewrite Htruthy. simpl negb. cbv iota.
      erewrite bind_return by reflexivity.
      erewrite bind_return by exact Hrun.
      reflexivity.
    + rewrite (proj2 (add_rows_rows _ _ _)). reflexivity.
    + rewrite (proj1 (add_rows_rows _ _ _)). reflexivity.
  - intros text st2 Hrun.
    unfold Cli.get_ec2, try_except_ecs.
    erewrite bind_return by exact Hinit.
    erewrite bind_return by exact Hcur.
    rewrite Htruthy. simpl negb. cbv iota.
    erewrite bind_return by reflexivity.
    erewrite bind_raise by exact Hrun.
    reflexivity.
Qed.

(** X12: with a cluster selected, [get containers] queries that cluster:
    when [get_containers] returns, it prints a table of six columns with
    one row per record, in order; when it raises ECSCommandError, it prints
    'Error: ' followed by the message and exits with status 1. *)
Theorem get_containers_table (st : state) (ecs : ECSController) (st1 : state)
    (cluster : string) :
  ECSController_init w st = (Return ecs, st1) ->
  persisted (config_file st) = Some cluster ->
  cluster <> EmptyString ->
  (forall records st2,
     get_containers w ecs cluster st1 = (Return records, st2) ->
     exists table,
       Cli.get_containers w st = (Return table, st2) /\
       columns table
       = ["Name"; "Status"; "Task ID"; "CPU"; "Memory"; "Created"] /\
       rows table
       = map (fun c => [ContainerInfo.Name c; ContainerInfo.Status c;
                        ContainerInfo.TaskId c; ContainerInfo.CPU c;
                        ContainerInfo.Memory c; ContainerInfo.Created c])
           records) /\
  (forall text st2,
     get_containers w ecs cluster st1
     = (Raise (Exception_ ECSCommandError text), st2) ->
     Cli.get_containers w st
     = (Raise (SystemExit 1), log [Echo true ("Error: " +:+ text)] st2)).
Proof.
  intros Hinit Hsel Hne.
  pose proof (current_after_init st ecs st1 [] Hinit) as Hcur.
  rewrite log_nil, Hsel in Hcur.
  assert (Htruthy : truthy (Some cluster) = true).
  { simpl. apply negb_true_iff, String.eqb_neq, Hne. }
  split.
  - intros records st2 Hrun. eexists. split; [|split].
    + unfold Cli.get_containers, try_except_ecs.
      erewrite bind_return by exact Hinit.
      erewrite bind_return by exact Hcur.
      rewrite Htruthy. simpl negb. cbv iota.
      erewrite bind_return by reflexivity.
      erewrite bind_return by exact Hrun.
      reflexivity.
    + rewrite (proj2 (add_rows_rows _ _ _)). reflexivity.
    + rewrite (proj1 (add_rows_rows _ _ _)). reflexivity.
  - intros text st2 Hrun.
    unfold Cli.get_containers, try_except_ecs.
    erewrite bind_return by exact Hinit.
    erewrite bind_return by exact Hcur.
    rewrite Htruthy. simpl negb. cbv iota.
    erewrite bind_return by reflexivity.
    erewrite bind_raise by exact Hrun.
    reflexivity.
Qed.
End Listing.

(** The tables of the sample account with [prod] selected. *)
Example listing_samples :
  let w := Sample.world None (Some "dev") in
  let st := Sample.selected "prod" in
  exists clusters instances records,
    fst (Cli.get_clusters w st) = Return clusters /\
    rows clusters = [["prod"; "*"]; ["staging"; ""]] /\
    fst (Cli.get_ec2 w st) = Return instances /\
    rows instances
    = [["i-0aaa"; "t3.medium"; "running"; "ACTIVE"; "2"];
       ["i-0bbb"; "t3.large"; "stopping"; "DRAINING"; "0"]] /\
    fst (Cli.get_containers w st) = Return records /\
    rows records
    = [["web"; "RUNNING"; "0f3a"; "256"; "N/A"; "2023-11-14 22:13:20"];
       ["sidecar"; "PENDING"; "0f3a"; "N/A"; "128"; "2023-11-14 22:13:20"]].
Proof.
  do 3 eexists.
  split; [reflexivity|]. split; [vm_compute; reflexivity|].
  split; [reflexivity|]. split; [vm_compute; reflexivity|].
  split; [reflexivity|]. vm_compute. reflexivity.
Qed.

Lemma get_clusters_table_witness :
  let w := Sample.world None (Some "dev") in
  let st := Sample.selected "prod" in
  let st1 := snd (ECSController_init w st) in
  (ECSController_init w st = (Return Sample.controller, st1) /\
   list_clusters w (ecs_client Sample.controller)
   = inr [Sample.PROD; Sample.STAGING]) /\
  exists table,
    Cli.get_clusters w st
    = (Return table,
       log [Sdk (ListClusters (ecs_client Sample.controller))] st1) /\
    columns table = ["Cluster Name"; "Current"] /\
    Forall2 (fun arn row =>
               exists name,
                 last_segment arn name /\
                 ((row = [name; "*"] /\
                   persisted (config_file st) = Some name) \/
                  (row = [name; ""] /\
                   persisted (config_file st) <> Some name)))
      [Sample.PROD; Sample.STAGING] (rows table).
Proof.
  intros w st st1. split; [split; reflexivity|].
  apply (get_clusters_table w st Sample.controller st1
           [Sample.PROD; Sample.STAGING]); reflexivity.
Defined.

Lemma commands_need_selection_witness :
  let w := Sample.world None (Some "dev") in
  let st1 := snd (ECSController_init w Sample.fresh) in
  (ECSController_init w Sample.fresh = (Return Sample.controller, st1) /\
   truthy (persisted (config_file Sample.fresh)) = false) /\
  Cli.get_ec2 w Sample.fresh
  = (Raise (SystemExit 1), log [Echo true NO_CLUSTER_SELECTED] st1) /\
  Cli.get_containers w Sample.fresh
  = (Raise (SystemExit 1), log [Echo true NO_CLUSTER_SELECTED] st1) /\
  forall instance_id,
    exec_instance w instance_id Sample.fresh
    = (Raise (SystemExit 1), log [Echo true NO_CLUSTER_SELECTED] st1).
Proof.
  intros w st1. split; [split; reflexivity|].
  apply (commands_need_selection w Sample.fresh Sample.controller st1);
    reflexivity.
Defined.

Lemma get_ec2_table_witness :
  let w := Sample.world None (Some "dev") in
  let st := Sample.selected "prod" in
  let st1 := snd (ECSController_init w st) in
  let r := get_ec2_instances w Sample.controller "prod" st1 in
  (ECSController_init w st = (Return Sample.controller, st1) /\
   persisted (config_file st) = Some "prod" /\
   "prod" <> EmptyString) /\
  exists instances table,
    r = (Return instances, snd r) /\
    Cli.get_ec2 w st = (Return table, snd r) /\
    columns table
    = ["Instance ID"; "Type"; "State"; "Status"; "Running Tasks"] /\
    rows table
    = map (fun i => [InstanceInfo.InstanceId i; InstanceInfo.InstanceType i;
                     InstanceInfo.State i; InstanceInfo.Status i;
                     str_int (InstanceInfo.RunningTasks i)]) instances.
Proof.
  intros w st st1 r.
  split; [split; [reflexivity | split; [reflexivity | discriminate]]|].
  assert (Hr : exists instances, r = (Return instances, snd r))
    by (eexists; reflexivity).
  destruct Hr as (instances & Hr). exists instances.
  destruct (proj1 (get_ec2_table w st Sample.controller st1 "prod"
                     eq_refl eq_refl ltac:(discriminate))
              instances (snd r) Hr) as (table & Hrun & Hcols & Hrows).
  exists table. auto.
Defined.

Lemma get_containers_table_witness :
  let w := Sample.world None (Some "dev") in
  let st := Sample.selected "prod" in
  let st1 := snd (ECSController_init w st) in
  let r := get_containers w Sample.controller "prod" st1 in
  (ECSController_init w st = (Return Sample.controller, st1) /\
   persisted (config_file st) = Some "prod" /\
   "prod" <> EmptyString) /\
  exists records table,
    r = (Return records, snd r) /\
    Cli.get_containers w st = (Return table, snd r) /\
    columns table
    = ["Name"; "Status"; "Task ID"; "CPU"; "Memory"; "Created"] /\
    rows table
    = map (fun c => [ContainerInfo.Name c; ContainerInfo.Status c;
                     ContainerInfo.TaskId c; ContainerInfo.CPU c;
                     ContainerInfo.Memory c; ContainerInfo.Created c])
        records.
Proof.
  intros w st st1 r.
  split; [split; [reflexivity | split; [reflexivity | discriminate]]|].
  assert (Hr : exists records, r = (Return records, snd r))
    by (eexists; reflexivity).
  destruct Hr as (records & Hr). exists records.
  destruct (proj1 (get_containers_table w st Sample.controller st1 "prod"
                     eq_refl eq_refl ltac:(discriminate))
              records (snd r) Hr) as (table & Hrun & Hcols & Hrows).
  exists table. auto.
Defined.

(** ** The session [exec] opens *)

Lemma find_some_first {A} (f : A -> bool) (l : list A) (x : A) :
  In x l -> f x = true -> exists y, find f l = Some y.
Proof.
  induction l as [|z l IH]; simpl; [tauto|].
  intros [->|Hin] Hx.
  - rewrite Hx. eauto.
  - destruct (f z); eauto.
Qed.

Section Session.
Context `{DatetimeLib} (w : World).

Lemma init_shape st ecs st1 :
  ECSController_init w st = (Return ecs, st1) ->
  (exists session, ecs = controller_on (AWSClient_init w None) session) /\
  exists evs, trace st1 = trace st ++ evs /\ existsb is_launch evs = false.
Proof.
  destruct (calm_connect w st) as (evs0 & Hs & Hq & Hx).
  unfold ECSController_init, try_except. rewrite initialize_split.
  unfold mbind, M_bind, bind.
  destruct (connect w st) as [[ecs'|[cls t|code]] s0] eqn:Hconnect;
    simpl in Hs; subst s0; try discriminate.
  destruct (ClusterConfig_init_run (log evs0 st)) as (evs1 & -> & Hl1 & _).
  intros E. injection E as <- <-. split.
  - exact (connect_shape w _ _ _ Hconnect).
  - exists (evs0 ++ evs1). simpl. rewrite <- app_assoc.
    split; [reflexivity|].
    rewrite existsb_app, (quiet_no_launch _ Hq), Hl1. reflexivity.
Qed.

(** X13: when the preconditions of [exec] hold, the effects of the command
    end with the message 'Starting session ...' and the call of
    [subprocess.run], the only one it makes, on the command
    [aws ssm start-session --target <id> [--profile <p>] --region <r>]
    where the profile is AWS_PROFILE, given only when that is a non-empty
    string, and the region is the value of AWS_REGION when there is such a
    variable (the empty string included) and 'ap-southeast-1' when there is
    none: whether or not a role was assumed through AWS_ROLE_ARN, the
    temporary credentials are not handed to the command.  What
    [subprocess.run] then does is not part of the statement. *)
Theorem exec_command_line (instance_id : string) (st : state) :
  exec_preconditions w instance_id st ->
  exists before,
    existsb is_launch before = false /\
    events_of (exec_instance w instance_id) st
    = before
      ++ [ Echo false ("Starting session with instance '" +:+ instance_id
                         +:+ "'...");
           Subprocess
             (["aws"; "ssm"; "start-session"; "--target"; instance_id]
              ++ (if truthy (getenv w "AWS_PROFILE")
                  then ["--profile";
                        default EmptyString (getenv w "AWS_PROFILE")]
                  else [])
              ++ ["--region";
                  default "ap-southeast-1" (getenv w "AWS_REGION")]) ].
Proof.
  intros (ecs & st1 & cluster & instances & instance & Hinit & Hcc & Hne
          & Hec2 & Hin & Hid & Hssm).
  destruct (init_shape st ecs st1 Hinit)
    as ((session & Hecs) & evs1 & Htrace1 & Hl1).
  pose proof (current_after_init w st ecs st1 [] Hinit) as Hcur.
  rewrite log_nil in Hcur. rewrite Hcur in Hcc. simpl in Hcc.
  injection Hcc as Hsel. rewrite Hsel in Hcur.
  assert (Htruthy : truthy (Some cluster) = true).
  { simpl. apply negb_true_iff, String.eqb_neq, Hne. }
  destruct (calm_get_instance_details w ecs cluster instance_id st1)
    as (evs2 & Hs2 & Hq2 & _).
  apply quiet_no_launch in Hq2.
  assert (Hdet : exists found,
             get_instance_details w ecs cluster instance_id st1
             = (Return (Some found), log evs2 st1)).
  { rewrite get_instance_details_cases in Hs2 |- *.
    destruct (get_ec2_instances w ecs cluster st1) as [[l|e] s2];
      simpl in Hec2; [|discriminate]. injection Hec2 as ->.
    simpl in Hs2. subst s2.
    destruct (find_some_first
                (fun i => String.eqb (InstanceInfo.InstanceId i) instance_id)
                instances instance Hin) as (found & ->);
      [apply String.eqb_eq, Hid|]. eauto. }
  destruct Hdet as (found & Hdet).
  pose proof (check_ssm_status_run w ecs instance_id (log evs2 st1)) as Hrun.
  rewrite check_ssm_status_run in Hssm. simpl in Hssm.
  injection Hssm as Hok. rewrite Hok in Hrun.
  assert (Hr : exec_instance w instance_id st
               = (Return tt,
                  log [Subprocess (ssm_command ecs instance_id)]
                    (log [Echo false ("Starting session with instance '"
                                        +:+ instance_id +:+ "'...")]
                       (log [Sdk (DescribeInstanceInformation (ssm_client ecs)
                                    instance_id)] (log evs2 st1))))).
  { unfold exec_instance, try_except_ecs.
    erewrite bind_return by exact Hinit.
    erewrite bind_return by exact Hcur.
    rewrite Htruthy. simpl default.
    erewrite bind_return by reflexivity.
    erewrite bind_return by exact Hdet.
    erewrite bind_return by reflexivity.
    erewrite bind_return by exact Hrun. reflexivity. }
  exists (evs1 ++ evs2
          ++ [Sdk (DescribeInstanceInformation (ssm_client ecs) instance_id)]).
  split.
  - rewrite !existsb_app, Hl1, Hq2. reflexivity.
  - apply events_of_trace. rewrite Hr. simpl. rewrite Htrace1, Hecs.
    rewrite <- !app_assoc. reflexivity.
Qed.
End Session.

Lemma exec_command_line_witness :
  let w := Sample.world (Some Sample.ROLE) (Some "dev") in
  let st := Sample.selected "prod" in
  exec_preconditions w "i-0aaa" st /\
  exists before,
    existsb is_launch before = false /\
    events_of (exec_instance w "i-0aaa") st
    = before
      ++ [ Echo false "Starting session with instance 'i-0aaa'...";
           Subprocess ["aws"; "ssm"; "start-session"; "--target"; "i-0aaa";
                       "--profile"; "dev"; "--region"; "ap-southeast-1"] ].
Proof.
  intros w st.
  assert (Hpre : exec_preconditions w "i-0aaa" st).
  { unfold exec_preconditions. do 5 eexists.
    split; [reflexivity|]. split; [reflexivity|]. split; [discriminate|].
    split; [reflexivity|]. split; [left; reflexivity|].
    split; reflexivity. }
  split; [exact Hpre|].
  exact (exec_command_line w "i-0aaa" st Hpre).
Defined.

(** ** What [exec] and the commands report *)

Section Reporting.
Context `{DatetimeLib} (w : World).

(** X14: for an instance id that is not among the records of the selected
    cluster, [exec] prints that the instance was not found in that cluster
    and exits with status 1 right after [get_ec2_instances]: SSM is not
    asked about the instance and nothing is launched. *)
Theorem exec_unknown_instance (instance_id : string) (st : state)
    (ecs : ECSController) (st1 : state) (cluster : string)
    (instances : list InstanceInfo.t) (st2 : state) :
  ECSController_init w st = (Return ecs, st1) ->
  persisted (config_file st) = Some cluster ->
  cluster <> EmptyString ->
  get_ec2_instances w ecs cluster st1 = (Return instances, st2) ->
  (forall i, In i instances -> InstanceInfo.InstanceId i <> instance_id) ->
  exec_instance w instance_id st
  = (Raise (SystemExit 1),
     log [Echo true ("Error: Instance '" +:+ instance_id
                       +:+ "' not found in cluster '" +:+ cluster +:+ "'")]
       st2).
Proof.
  intros Hinit Hsel Hne Hrun Hnone.
  pose proof (current_after_init w st ecs st1 [] Hinit) as Hcur.
  rewrite log_nil, Hsel in Hcur.
  assert (Htruthy : truthy (Some cluster) = true).
  { simpl. apply negb_true_iff, String.eqb_neq, Hne. }
  assert (Hdet : get_instance_details w ecs cluster instance_id st1
                 = (Return None, st2)).
  { rewrite get_instance_details_cases, Hrun.
    rewrite find_no_match by exact Hnone. reflexivity. }
  unfold exec_instance, try_except_ecs.
  erewrite bind_return by exact Hinit.
  erewrite bind_return by exact Hcur.
  rewrite Htruthy. simpl default.
  erewrite bind_return by reflexivity.
  erewrite bind_return by exact Hdet.
  reflexivity.
Qed.

(** X15: for an instance of the selected cluster whose SSM query returns
    no entry or raises, [exec] prints 'SSM is not available on instance'
    and exits with status 1 without launching anything; the text of the
    exception, if there was one, appears nowhere. *)
Theorem exec_ssm_unavailable (instance_id : string) (st : state)
    (ecs : ECSController) (st1 : state) (cluster : string)
    (instances : list InstanceInfo.t) (st2 : state)
    (instance : InstanceInfo.t) :
  ECSController_init w st = (Return ecs, st1) ->
  persisted (config_file st) = Some cluster ->
  cluster <> EmptyString ->
  get_ec2_instances w ecs cluster st1 = (Return instances, st2) ->
  In instance instances ->
  InstanceInfo.InstanceId instance = instance_id ->
  (describe_instance_information w (ssm_client ecs) instance_id = inr [] \/
   exists text,
     describe_instance_information w (ssm_client ecs) instance_id
     = inl text) ->
  exec_instance w instance_id st
  = (Raise (SystemExit 1),
     log [Echo true ("Error: SSM is not available on instance '"
                       +:+ instance_id +:+ "'")]
       (log [Sdk (DescribeInstanceInformation (ssm_client ecs) instance_id)]
          st2)).
Proof.
  intros Hinit Hsel Hne Hrun Hin Hid Hssm.
  pose proof (current_after_init w st ecs st1 [] Hinit) as Hcur.
  rewrite log_nil, Hsel in Hcur.
  assert (Htruthy : truthy (Some cluster) = true).
  { simpl. apply negb_true_iff, String.eqb_neq, Hne. }
  destruct (find_some_first
              (fun i => String.eqb (InstanceInfo.InstanceId i) instance_id)
              instances instance Hin) as (found & Hfound);
    [apply String.eqb_eq, Hid|].
  assert (Hdet : get_instance_details w ecs cluster instance_id st1
                 = (Return (Some found), st2)).
  { rewrite get_instance_details_cases, Hrun, Hfound. reflexivity. }
  assert (Hcheck : check_ssm_status w ecs instance_id st2
                   = (Return false,
                      log [Sdk (DescribeInstanceInformation (ssm_client ecs)
                                  instance_id)] st2)).
  { rewrite check_ssm_status_run.
    destruct Hssm as [-> | (text & ->)]; reflexivity. }
  unfold exec_instance, try_except_ecs.
  erewrite bind_return by exact Hinit.
  erewrite bind_return by exact Hcur.
  rewrite Htruthy. simpl default.
  erewrite bind_return by reflexivity.
  erewrite bind_return by exact Hdet.
  erewrite bind_return by reflexivity.
  erewrite bind_return by exact Hcheck.
  reflexivity.
Qed.

(** X16: when the controller cannot be constructed, each of the five
    commands prints 'Error: ' followed by the message of the
    ECSCommandError on the error stream and exits with status 1, having
    done nothing else. *)
Theorem commands_report_init_failure (st : state) (text : string)
    (st1 : state) (cluster_name instance_id : string) :
  ECSController_init w st
  = (Raise (Exception_ ECSCommandError text), st1) ->
  let failed {A} : outcome A * state :=
    (Raise (SystemExit 1), log [Echo true ("Error: " +:+ text)] st1) in
  use_cluster w cluster_name st = failed /\
  exec_instance w instance_id st = failed /\
  Cli.get_clusters w st = failed /\
  Cli.get_ec2 w st = failed /\
  Cli.get_containers w st = failed.
Proof.
  intros Hinit failed. unfold failed.
  repeat split;
    unfold use_cluster, exec_instance, Cli.get_clusters, Cli.get_ec2,
      Cli.get_containers, try_except_ecs;
    erewrite bind_raise by exact Hinit; reflexivity.
Qed.
End Reporting.

Lemma exec_unknown_instance_witness :
  let w := Sample.world None (Some "dev") in
  let st := Sample.selected "prod" in
  let st1 := snd (ECSController_init w st) in
  let instances := [Records.first; Records.second] in
  let st2 := snd (get_ec2_instances w Sample.controller "prod" st1) in
  (ECSController_init w st = (Return Sample.controller, st1) /\
   persisted (config_file st) = Some "prod" /\
   "prod" <> EmptyString /\
   get_ec2_instances w Sample.controller "prod" st1
   = (Return instances, st2) /\
   forall i, In i instances -> InstanceInfo.InstanceId i <> "i-0ccc") /\
  exec_instance w "i-0ccc" st
  = (Raise (SystemExit 1),
     log [Echo true "Error: Instance 'i-0ccc' not found in cluster 'prod'"]
       st2).
Proof.
  intros w st st1 instances st2.
  assert (Hnone : forall i,
            In i instances -> InstanceInfo.InstanceId i <> "i-0ccc").
  { intros i [<-|[<-|[]]]; discriminate. }
  split.
  - split; [reflexivity|]. split; [reflexivity|]. split; [discriminate|].
    split; [reflexivity | exact Hnone].
  - apply (exec_unknown_instance w "i-0ccc" st Sample.controller st1 "prod"
             instances st2);
      solve [reflexivity | discriminate | exact Hnone].
Defined.

Lemma exec_ssm_unavailable_witness :
  let w := Sample.world None (Some "dev") in
  let st := Sample.selected "prod" in
  let st1 := snd (ECSController_init w st) in
  let instances := [Records.first; Records.second] in
  let st2 := snd (get_ec2_instances w Sample.controller "prod" st1) in
  (ECSController_init w st = (Return Sample.controller, st1) /\
   persisted (config_file st) = Some "prod" /\
   "prod" <> EmptyString /\
   get_ec2_instances w Sample.controller "prod" st1
   = (Return instances, st2) /\
   In Records.second instances /\
   InstanceInfo.InstanceId Records.second = "i-0bbb" /\
   describe_instance_information w (ssm_client Sample.controller) "i-0bbb"
   = inl "AccessDeniedException") /\
  exec_instance w "i-0bbb" st
  = (Raise (SystemExit 1),
     log [Echo true "Error: SSM is not available on instance 'i-0bbb'"]
       (log [Sdk (DescribeInstanceInformation
                    (ssm_client Sample.controller) "i-0bbb")] st2)).
Proof.
  intros w st st1 instances st2.
  assert (Hin : In Records.second instances) by (right; left; reflexivity).
  split.
  - split; [reflexivity|]. split; [reflexivity|]. split; [discriminate|].
    split; [reflexivity|]. split; [exact Hin|]. split; reflexivity.
  - apply (exec_ssm_unavailable w "i-0bbb" st Sample.controller st1 "prod"
             instances st2 Records.second);
      try solve [reflexivity | discriminate | exact Hin].
    right. exists "AccessDeniedException". reflexivity.
Defined.

Lemma commands_report_init_failure_witness :
  let w := Refused.world in
  let text :=
    "Failed to initialize AWS clients: Failed to authenticate with AWS: AccessDenied" in
  let st1 := snd (ECSController_init w Sample.fresh) in
  ECSController_init w Sample.fresh
  = (Raise (Exception_ ECSCommandError text), st1) /\
  use_cluster w "prod" Sample.fresh
  = (Raise (SystemExit 1), log [Echo true ("Error: " +:+ text)] st1) /\
  Cli.get_ec2 w Sample.fresh
  = (Raise (SystemExit 1), log [Echo true ("Error: " +:+ text)] st1).
Proof.
  intros w text st1.
  assert (Hinit : ECSController_init w Sample.fresh
                  = (Raise (Exception_ ECSCommandError text), st1))
    by reflexivity.
  split; [exact Hinit|].
  destruct (commands_report_init_failure w Sample.fresh text st1 "prod"
              "i-0aaa" Hinit) as (Huse & _ & _ & Hec2 & _).
  split; assumption.
Defined.

(** ** What [use-cluster] prints when it does not switch *)

Section Refusals.
Context `{DatetimeLib} (w : World).

(** X17: when the clusters cannot be listed, [use-cluster] prints
    'Error: Failed to get clusters: ' followed by the text of the
    exception and exits with status 1; it writes nothing after the
    controller has come up. *)
Theorem use_cluster_listing_fails (cluster_name : string) (st : state)
    (ecs : ECSController) (st1 : state) (text : string) :
  ECSController_init w st = (Return ecs, st1) ->
  list_clusters w (ecs_client ecs) = inl text ->
  use_cluster w cluster_name st
  = (Raise (SystemExit 1),
     log [ Sdk (ListClusters (ecs_client ecs));
           Echo true ("Error: Failed to get clusters: " +:+ text) ] st1).
Proof.
  intros Hinit Hlist.
  pose proof (get_clusters_run w ecs st1) as Hget. rewrite Hlist in Hget.
  unfold use_cluster, try_except_ecs.
  erewrite bind_return by exact Hinit.
  erewrite bind_raise by exact Hget.
  unfold report_and_exit. erewrite bind_return by reflexivity.
  simpl. rewrite log_log. reflexivity.
Qed.

(** X18: for a name that is not listed, [use-cluster] prints on the error
    stream that the cluster was not found, then on the standard output one
    line '  - <name>' per listed cluster, in the order of the listing, and
    exits with status 1; it writes nothing after the controller has come
    up. *)
Theorem use_cluster_lists_alternatives (cluster_name : string) (st : state)
    (ecs : ECSController) (st1 : state) (arns : list string) :
  ECSController_init w st = (Return ecs, st1) ->
  list_clusters w (ecs_client ecs) = inr arns ->
  str_in cluster_name (map split_last arns) = false ->
  exists names,
    Forall2 last_segment arns names /\
    use_cluster w cluster_name st
    = (Raise (SystemExit 1),
       log (Sdk (ListClusters (ecs_client ecs))
            :: Echo true ("Error: Cluster '" +:+ cluster_name
                            +:+ "' not found. Available clusters:")
            :: map (fun name => Echo false ("  - " +:+ name)) names) st1).
Proof.
  intros Hinit Hlist Hnot.
  pose proof (get_clusters_run w ecs st1) as Hget. rewrite Hlist in Hget.
  exists (map split_last arns). split; [apply map_split_last_segments|].
  unfold use_cluster, try_except_ecs.
  erewrite bind_return by exact Hinit.
  erewrite bind_return by exact Hget.
  rewrite Hnot. simpl negb. cbv iota.
  erewrite bind_raise by apply not_found_exit.
  rewrite !log_log. reflexivity.
Qed.
End Refusals.

Lemma use_cluster_listing_fails_witness :
  let w := Sample.denied in
  let st := Sample.selected "prod" in
  let st1 := snd (ECSController_init w st) in
  let ecs := controller_on {| profile_name := None;
                              region := "ap-southeast-1" |}
               (plain_session None "ap-southeast-1") in
  (ECSController_init w st = (Return ecs, st1) /\
   list_clusters w (ecs_client ecs) = inl "AccessDeniedException") /\
  use_cluster w "staging" st
  = (Raise (SystemExit 1),
     log [ Sdk (ListClusters (ecs_client ecs));
           Echo true "Error: Failed to get clusters: AccessDeniedException" ]
       st1).
Proof.
  intros w st st1 ecs. split; [split; reflexivity|].
  apply (use_cluster_listing_fails w "staging" st ecs st1
           "AccessDeniedException"); reflexivity.
Defined.

Lemma use_cluster_lists_alternatives_witness :
  let w := Sample.world None (Some "dev") in
  let st := Sample.selected "prod" in
  let st1 := snd (ECSController_init w st) in
  let arns := [Sample.PROD; Sample.STAGING] in
  (ECSController_init w st = (Return Sample.controller, st1) /\
   list_clusters w (ecs_client Sample.controller) = inr arns /\
   str_in "qa" (map split_last arns) = false) /\
  exists names,
    Forall2 last_segment arns names /\
    use_cluster w "qa" st
    = (Raise (SystemExit 1),
       log (Sdk (ListClusters (ecs_client Sample.controller))
            :: Echo true "Error: Cluster 'qa' not found. Available clusters:"
            :: map (fun name => Echo false ("  - " +:+ name)) names) st1).
Proof.
  intros w st st1 arns. split; [repeat split; reflexivity|].
  apply (use_cluster_lists_alternatives w "qa" st Sample.controller st1 arns);
    reflexivity.
Defined.
